(** * generate_snp500_tickers_financial_data.py: growth rates, formatting
      and the outperformer filter

    A shallow embedding of the script's functions and the properties its
    specification states about them.

    Layout:
    - [Py]: the part of Python's semantics the script relies on: raised
      exceptions as results, [int] and binary64 [float] arithmetic with the
      conversions between them, the [.2f] format, dictionaries with string
      keys, and the order on [str];
    - the script's own definitions, under the names they have in the source;
    - the properties. *)

From Stdlib Require Import ZArith Floats String Ascii DecimalString List.
From stdpp Require Import gmap strings list.

Module Py.

(** ** Exceptions and results *)

(** The exceptions that can arise in the modelled code.  [OtherException]
    stands for whatever the data provider raises (network errors, missing
    statement lines, ...). *)
Inductive exception :=
| ZeroDivisionError
| OverflowError
| KeyError (key : string)
| OtherException (name : string).

(** A computation either returns a value or raises. *)
Inductive result (A : Type) :=
| Ok (a : A)
| Raise (e : exception).
Arguments Ok {A} a.
Arguments Raise {A} e.

(** Sequencing: an exception raised by the first computation propagates.
    This gives the notation [x ← r; k]. *)
#[global] Instance result_bind : MBind result := λ A B k r,
  match r with
  | Ok a => k a
  | Raise e => Raise e
  end.

(** [try: body except Exception: handler]. *)
Definition try_except {A} (body : result A) (handler : exception → A) : A :=
  match body with
  | Ok a => a
  | Raise e => handler e
  end.

Definition returns {A} (r : result A) : bool :=
  match r with Ok _ => true | Raise _ => false end.

(** ** Numbers *)

(** The numeric values the script handles: Python's unbounded [int]
    (market capitalisation, literals), Python's [float] (binary64), and
    [numpy.float64], the subclass of [float] that pandas hands out for
    prices and statement items.  The two float flavours hold the same
    values and print alike; they differ in that numpy's division follows
    IEEE 754 on a zero divisor where Python's raises. *)
Inductive number :=
| PyInt (z : Z)
| PyFloat (f : float)
| NpFloat64 (f : float).

Definition prec : Z := 53.
Definition emax : Z := 1024.

Definition finite_sf (x : spec_float) : bool :=
  match x with
  | S754_zero _ | S754_finite _ _ _ => true
  | S754_infinity _ | S754_nan => false
  end.

Definition is_finite (f : float) : bool := finite_sf (Prim2SF f).

(** [float(z)]: the nearest binary64 value, ties to even; an [int] beyond
    the range of binary64 raises [OverflowError]. *)
Definition int_to_float (z : Z) : result float :=
  let x := binary_normalize prec emax z 0 false in
  if finite_sf x then Ok (SF2Prim x) else Raise OverflowError.

(** The operand of a float operation, converted as CPython does it. *)
Definition as_float (x : number) : result float :=
  match x with
  | PyInt z => int_to_float z
  | PyFloat f | NpFloat64 f => Ok f
  end.

(** Whether numpy's implementation of a binary operation is the one
    selected: it is as soon as one operand is a [numpy.float64]. *)
Definition numpy_op (x y : number) : bool :=
  match x, y with
  | NpFloat64 _, _ | _, NpFloat64 _ => true
  | _, _ => false
  end.

Definition float_result (np : bool) (f : float) : number :=
  if np then NpFloat64 f else PyFloat f.

Definition int_as_sf (z : Z) : spec_float :=
  match z with
  | Z0 => S754_zero false
  | Zpos p => S754_finite false p 0
  | Zneg p => S754_finite true p 0
  end.

(** [a / b] on two [int]s: the correctly rounded quotient, as a [float]. *)
Definition int_truediv (a b : Z) : result number :=
  if (b =? 0)%Z then Raise ZeroDivisionError
  else
    let q := SFdiv prec emax (int_as_sf a) (int_as_sf b) in
    if finite_sf q then Ok (PyFloat (SF2Prim q)) else Raise OverflowError.

(** [x - y] *)
Definition sub (x y : number) : result number :=
  match x, y with
  | PyInt a, PyInt b => Ok (PyInt (a - b))
  | _, _ =>
      (a ← as_float x;
       b ← as_float y;
       Ok (float_result (numpy_op x y) (a - b)%float))
  end.

(** [x * y] *)
Definition mul (x y : number) : result number :=
  match x, y with
  | PyInt a, PyInt b => Ok (PyInt (a * b))
  | _, _ =>
      (a ← as_float x;
       b ← as_float y;
       Ok (float_result (numpy_op x y) (a * b)%float))
  end.

(** [x / y] *)
Definition truediv (x y : number) : result number :=
  match x, y with
  | PyInt a, PyInt b => int_truediv a b
  | _, _ =>
      (a ← as_float x;
       b ← as_float y;
       if numpy_op x y then Ok (NpFloat64 (a / b)%float)
       else if (b =? 0)%float then Raise ZeroDivisionError
       else Ok (PyFloat (a / b)%float))
  end.

(** Exact comparison of an [int] with a [float], as CPython performs it:
    [z >= f] on the mathematical values. *)
Definition int_ge_float (z : Z) (f : float) : bool :=
  match Prim2SF f with
  | S754_nan => false
  | S754_infinity s => s
  | S754_zero _ => (0 <=? z)%Z
  | S754_finite s m e =>
      let v := if s then Z.neg m else Z.pos m in
      match e with
      | Zneg k => (v <=? z * 2 ^ Z.pos k)%Z
      | _ => (v * 2 ^ e <=? z)%Z
      end
  end.

(** [x >= c] for a float constant [c]. *)
Definition ge_float (x : number) (c : float) : bool :=
  match x with
  | PyInt z => int_ge_float z c
  | PyFloat f | NpFloat64 f => (c <=? f)%float
  end.

(** ** The format specification [.2f] *)

Definition digit (d : Z) : ascii := ascii_of_N (48 + Z.to_N d).

(** The decimal numeral of a natural number. *)
Definition decimal (n : Z) : string := NilZero.string_of_uint (N.to_uint (Z.to_N n)).

(** A count [q] of hundredths with its sign, printed in fixed notation with
    two fractional digits. *)
Definition fixed2 (negative : bool) (q : Z) : string :=
  ((if negative then "-" else "") +:+ decimal (q / 100) +:+ "."
   +:+ String (digit (q / 10 mod 10)) (String (digit (q mod 10)) ""))%string.

(** [n / d] rounded to the nearest integer, ties to the even one. *)
Definition round_half_even (n d : Z) : Z :=
  let q := (n / d)%Z in
  let r := (n mod d)%Z in
  match (2 * r ?= d)%Z with
  | Lt => q
  | Gt => (q + 1)%Z
  | Eq => if Z.even q then q else (q + 1)%Z
  end.

(** The magnitude [m * 2^e] in hundredths, correctly rounded. *)
Definition hundredths (m : positive) (e : Z) : Z :=
  match e with
  | Zneg k => round_half_even (100 * Z.pos m) (2 ^ Z.pos k)
  | _ => (100 * Z.pos m * 2 ^ e)%Z
  end.

(** [format(f, ".2f")] for a float: the decimal expansion of the exact
    binary value, correctly rounded to two places; the sign is that of the
    float, also when the digits are all zero. *)
Definition format_2f_float (f : float) : string :=
  match Prim2SF f with
  | S754_nan => "nan"
  | S754_infinity s => if s then "-inf" else "inf"
  | S754_zero s => fixed2 s 0
  | S754_finite s m e => fixed2 s (hundredths m e)
  end.

(** [format(x, ".2f")]: an [int] is first converted to [float]. *)
Definition format_2f (x : number) : result string :=
  (f ← as_float x; Ok (format_2f_float f)).





(** ** Strings and dictionaries *)

(** [a > b] on [str]: lexicographic, character by character.  Strings are
    sequences of bytes here; the strings the script compares are ASCII,
    where Python's order on code points is the order on bytes. *)
Definition str_gt (a b : string) : bool := String.ltb b a.

(** What a record of the script holds under a key: [None] or a [str]. *)
Inductive value :=
| VNone
| VStr (s : string).

(** [d[k]] *)
Definition getitem (d : gmap string value) (k : string) : result value :=
  match d !! k with
  | Some v => Ok v
  | None => Raise (KeyError k)
  end.

(** [all(cond(x) for x in xs)]: the generator is consumed up to the first
    element whose condition is false. *)
Fixpoint all_ {A} (cond : A → result bool) (xs : list A) : result bool :=
  match xs with
  | [] => Ok true
  | x :: xs' => c ← cond x; if c : bool then all_ cond xs' else Ok false
  end.

End Py.

Import Py.

(** * The script *)

(** A per-ticker record: the dictionary built by
    [fetch_growth_and_financials]. *)
Abbreviation record := (gmap string value).

(** The period tables, in the order the dictionaries list them. *)
Definition five_year_periods : list (string * (string * string)) :=
  [ ("1994-1999", ("1994-01-01", "1999-01-01"));
    ("1999-2004", ("1999-01-01", "2004-01-01"));
    ("2004-2009", ("2004-01-01", "2009-01-01"));
    ("2009-2014", ("2009-01-01", "2014-01-01"));
    ("2014-2019", ("2014-01-01", "2019-01-01"));
    ("2019-2024", ("2019-01-01", "2024-10-22")) ].

Definition ten_year_periods : list (string * (string * string)) :=
  [ ("1994-2004", ("1994-01-01", "2004-01-01"));
    ("2004-2014", ("2004-01-01", "2014-01-01"));
    ("2014-2024", ("2014-01-01", "2024-10-22")) ].

(** [d.keys()] *)
Definition keys {A} (d : list (string * A)) : list string := d.*1.

Definition snp500_ticker : string := "SPY".
Definition qqq_ticker : string := "QQQ".

(** [((end_price - start_price) / start_price) * 100] *)
Definition calculate_growth_rate (start_price end_price : number) : result number :=
  d ← sub end_price start_price;
  q ← truediv d start_price;
  mul q (PyInt 100).

(** Lines 75-83.  [value / 1e9] and the [.2f] format convert an [int] to
    [float]; [value >= 1e9] compares it exactly. *)
Definition format_currency (value : option number) : result string :=
  match value with
  | None => Ok "N/A"
  | Some value =>
      if ge_float value 1e9 then
        b ← truediv value (PyFloat 1e9);
        s ← format_2f b;
        Ok ("$" +:+ s +:+ "B")
      else if ge_float value 1e6 then
        m ← truediv value (PyFloat 1e6);
        s ← format_2f m;
        Ok ("$" +:+ s +:+ "M")
      else
        s ← format_2f value;
        Ok ("$" +:+ s)
  end.

(** Lines 87-90. *)
Definition format_percentage (value : option number) : result string :=
  match value with
  | None => Ok "N/A"
  | Some value => s ← format_2f value; Ok (s +:+ "%")
  end.

(** ** The data provider *)

(** What one [yf.Ticker] object answers during a run: the three look-ups
    of the fundamentals, each of which may raise, and [history], which
    may raise or return a frame whose [Close] column is the given list
    (the frame is [empty] when the list is). *)
Record Stock := {
  net_income : result (option number);
  marketCap : result (option number);
  total_revenue : result (option number);
  history : string → string → result (list number)
}.

(** Lines 103-105: the three look-ups, in order. *)
Definition retrieve_fundamentals (stock : Stock)
    : result (option number * option number * option number) :=
  earnings ← net_income stock;
  market_cap ← marketCap stock;
  revenue ← total_revenue stock;
  Ok (earnings, market_cap, revenue).

(** Lines 102-112: the fundamentals, all three [None] as soon as one
    look-up raises. *)
Definition fundamentals (stock : Stock)
    : option number * option number * option number :=
  try_except (retrieve_fundamentals stock) (λ _, (None, None, None)).

(** Lines 120-137: the value stored under one period. *)
Definition period_growth (stock : Stock) (start_date end_date : string) : value :=
  try_except
    (data ← history stock start_date end_date;
     match data with
     | [] => Ok VNone
     | start_price :: _ =>
         let end_price := List.last data start_price in
         growth_rate ← calculate_growth_rate start_price end_price;
         s ← format_percentage (Some growth_rate);
         Ok (VStr s)
     end)
    (λ _, VNone).

(** Lines 119-137: the loop over the periods, storing into [result]. *)
Definition store_periods (stock : Stock)
    (periods : list (string * (string * string))) (result : record) : record :=
  fold_left
    (λ result '(period_name, (start_date, end_date)),
       <[period_name := period_growth stock start_date end_date]> result)
    periods result.

(** Lines 98-139: the record of one ticker. *)
Definition fetch_record (stock : Stock) (ticker : string) : result record :=
  let result : record := {[ "Ticker" := VStr ticker ]} in
  let '(earnings, market_cap, revenue) := fundamentals stock in
  s ← format_currency revenue;
  let result := <["Latest Revenue" := VStr s]> result in
  s ← format_currency earnings;
  let result := <["Latest Earnings" := VStr s]> result in
  s ← format_currency market_cap;
  let result := <["Market Cap" := VStr s]> result in
  Ok (store_periods stock five_year_periods result).

Section Fetcher.

(** [yf_Ticker n ticker]: the object the [n]-th construction
    [yf.Ticker(ticker)] of a call yields, with what it answers. *)
Variable yf_Ticker : nat → string → Stock.

(** Lines 95-141: the loop over the tickers, with the list accumulated
    so far and the number of objects constructed before. *)
Fixpoint fetch_loop (n : nat) (tickers : list string)
    (financial_data : list record) : result (list record) :=
  match tickers with
  | [] => Ok financial_data
  | ticker :: tickers' =>
      result ← fetch_record (yf_Ticker n ticker) ticker;
      fetch_loop (S n) tickers' (financial_data ++ [result])
  end.

Definition fetch_growth_and_financials (tickers : list string)
    : result (list record) :=
  fetch_loop 0 tickers [].

End Fetcher.

(** ** The outperformer filter *)

(** The condition of line 149 for one period: [stock[period] is not None
    and benchmark_data[period] is not None and stock[period] >
    benchmark_data[period]], evaluated from left to right (the second
    look-up of each dictionary gives the value of the first). *)
Definition beats (stock benchmark_data : record) (period : string) : result bool :=
  s ← getitem stock period;
  match s with
  | VNone => Ok false
  | VStr s =>
      b ← getitem benchmark_data period;
      match b with
      | VNone => Ok false
      | VStr b => Ok (str_gt s b)
      end
  end.

(** Lines 146-153: the loop, with the list accumulated so far. *)
Fixpoint find_outperformers_loop (stock_data : list record)
    (benchmark_data : record) (outperformers : list value) : result (list value) :=
  match stock_data with
  | [] => Ok outperformers
  | stock :: stock_data' =>
      ticker ← getitem stock "Ticker";
      c ← all_ (beats stock benchmark_data) (keys five_year_periods);
      find_outperformers_loop stock_data' benchmark_data
        (if c : bool then outperformers ++ [ticker] else outperformers)
  end.

Definition find_outperformers (stock_data : list record)
    (benchmark_data : record) : result (list value) :=
  find_outperformers_loop stock_data benchmark_data [].

(** ** What the specification says of the formatters' outputs *)

(** [strip_last c s]: [s] without its last character, when that is [c]. *)
Fixpoint strip_last (c : ascii) (s : string) : option string :=
  match s with
  | EmptyString => None
  | String a EmptyString => if Ascii.eqb a c then Some EmptyString else None
  | String a s' => String a <$> strip_last c s'
  end.




(** The formatters' domain: [None], every [float], and the [int]s that
    [float()] converts. *)
Definition in_domain (value : option number) : bool :=
  match value with
  | None => true
  | Some x => returns (as_float x)
  end.

(** The magnitude the specification selects: billions from 1e9 on,
    millions from 1e6 on, a plain amount below; with the amount printed
    for a value that [float()] converts to [f]. *)
Definition spec_suffix (x : number) : option ascii :=
  if ge_float x 1e9 then Some "B"%char
  else if ge_float x 1e6 then Some "M"%char
  else None.

Definition spec_amount (x : number) (f : float) : float :=
  if ge_float x 1e9 then (f / 1e9)%float
  else if ge_float x 1e6 then (f / 1e6)%float
  else f.

Definition suffix_string (suffix : option ascii) : string :=
  match suffix with
  | Some c => String c EmptyString
  | None => EmptyString
  end.



(** ** What the specification says of the filter *)

(** The ticker a record carries. *)
Definition ticker_of (stock : record) : value := default VNone (stock !! "Ticker").

(** Both growth values of a period are present and the record's is above
    the benchmark's, in the order the filter compares them with. *)
Definition beats_in (stock benchmark_data : record) (period : string) : bool :=
  match stock !! period, benchmark_data !! period with
  | Some (VStr s), Some (VStr b) => str_gt s b
  | _, _ => false
  end.

(** The record qualifies in every 5-year period. *)
Definition outperforms (benchmark_data stock : record) : bool :=
  forallb (beats_in stock benchmark_data) (keys five_year_periods).

(** A growth value is missing in some 5-year period, on either side. *)
Definition missing_growth (stock benchmark_data : record) : Prop :=
  ∃ period, period ∈ keys five_year_periods
            ∧ (stock !! period = Some VNone ∨ benchmark_data !! period = Some VNone).

(** A record with a ticker and a value, possibly [None], under every
    5-year period. *)
Definition complete (r : record) : Prop :=
  is_Some (r !! "Ticker") ∧ ∀ period, period ∈ keys five_year_periods → is_Some (r !! period).

(** ** Sample data *)

(** A record with the given growth values, in the order of the 5-year
    periods. *)
Definition growth_record (ticker : string) (growth : list value) : record :=
  list_to_map (("Ticker", VStr ticker) :: zip (keys five_year_periods) growth).

(** The scenario of the specification, its second period repeated over the
    remaining ones: a benchmark at 10% then 5%; A at 12% then 6%; B at 12%
    with a missing value; C at 9% then 6%. *)
Definition scenario_benchmark : record :=
  growth_record "SPY"
    [VStr "10.00%"; VStr "5.00%"; VStr "5.00%"; VStr "5.00%"; VStr "5.00%"; VStr "5.00%"].

Definition scenario_A : record :=
  growth_record "A"
    [VStr "12.00%"; VStr "6.00%"; VStr "6.00%"; VStr "6.00%"; VStr "6.00%"; VStr "6.00%"].

Definition scenario_B : record :=
  growth_record "B"
    [VStr "12.00%"; VNone; VStr "6.00%"; VStr "6.00%"; VStr "6.00%"; VStr "6.00%"].

Definition scenario_C : record :=
  growth_record "C"
    [VStr "9.00%"; VStr "6.00%"; VStr "6.00%"; VStr "6.00%"; VStr "6.00%"; VStr "6.00%"].

(** A provider whose first object fails on the fundamentals, raises on the
    first period and has no prices in the second, and whose other objects
    answer everything. *)
Definition sample_history (broken : bool) (start_date end_date : string)
    : result (list number) :=
  if broken && String.eqb start_date "1994-01-01"
  then Raise (OtherException "ConnectionError")
  else if broken && String.eqb start_date "1999-01-01" then Ok []
  else Ok [NpFloat64 80; NpFloat64 90; NpFloat64 100].

Definition sample_yf (n : nat) (ticker : string) : Stock :=
  {| net_income :=
       if (n =? 0)%nat then Raise (OtherException "KeyError")
       else Ok (Some (NpFloat64 2500000000));
     marketCap := Ok (Some (PyInt 2500000000));
     total_revenue := Ok (Some (NpFloat64 2500000));
     history := sample_history (n =? 0)%nat |}.

(** The records the fetcher returns for two tickers with that provider,
    and the first of them. *)
Definition sample_records : list record :=
  Eval vm_compute in
    match fetch_growth_and_financials sample_yf ["SPY"; "QQQ"] with
    | Ok records => records
    | Raise _ => []
    end.

Definition sample_record_SPY : record :=
  Eval vm_compute in default ∅ (sample_records !! 0%nat).

(** ** The ticker source *)

Definition sample_tickers_4 : list string :=
  ["QQQ"; "ACN"; "GOOGL"; "GOOG"; "AMZN"; "APH"; "ADI"; "AAPL"; "AJG";
    "AZO"; "AXON"; "AVGO"; "CDNS"; "CAT"; "CBRE"; "CTAS"; "CPRT"; "COST";
    "DHR"; "DECK"; "DE"; "DXCM"; "DHI"; "EQIX"; "ERIE"; "FICO"; "FI";
    "FTNT"; "GRMN"; "IT"; "HD"; "IDXX"; "PODD"; "INTU"; "ISRG"; "JBL";
    "KLAC"; "LRCX"; "LOW"; "MAR"; "MMC"; "MAS"; "MA"; "MTD"; "MOH"; "MPWR";
    "MCO"; "MSI"; "MSCI"; "NFLX"; "NVDA"; "NVR"; "NXPI"; "ORLY"; "ODFL";
    "PKG"; "POOL"; "RJF"; "SPGI"; "NOW"; "SHW"; "TER"; "TSLA"; "TMO";
    "TJX"; "TT"; "TDG"; "TYL"; "UNH"; "VRSK"; "VRTX"; "WST"; "ADBE"; "AMD";
    "GOOG"; "GOOGL"; "AMZN"; "AAPL"; "AMAT"; "AVGO"; "COST"; "ISRG";
    "INTU"; "LLY"; "MSFT"; "NVDA"; "NOW" ].

(** [c.isspace()], for a character below 256. *)
Definition is_space (c : ascii) : bool :=
  let n := N_of_ascii c in
  ((9 <=? n)%N && (n <=? 13)%N) || ((28 <=? n)%N && (n <=? 32)%N)
  || (n =? 133)%N || (n =? 160)%N.

Fixpoint lstrip (s : string) : string :=
  match s with
  | EmptyString => EmptyString
  | String c s' => if is_space c then lstrip s' else s
  end.

Fixpoint rstrip (s : string) : string :=
  match s with
  | EmptyString => EmptyString
  | String c s' =>
      match rstrip s' with
      | EmptyString => if is_space c then EmptyString else String c EmptyString
      | r => String c r
      end
  end.

(** [s.strip()] *)
Definition strip (s : string) : string := rstrip (lstrip s).

(** Lines 61-64: the loop over the rows, each given by the texts of its
    [td] cells, with the list accumulated so far.  [row.findAll('td')[0]]
    raises [IndexError] on a row without such a cell. *)
Fixpoint scrape_rows (rows : list (list string)) (tickers : list string)
    : result (list string) :=
  match rows with
  | [] => Ok tickers
  | row :: rows' =>
      match row with
      | [] => Raise (OtherException "IndexError")
      | cell :: _ => scrape_rows rows' (tickers ++ [strip cell])
      end
  end.

(** Lines 55-66.  [page] is what fetching and parsing the page gives: an
    exception, or the result of [soup.find('table', {'id':
    'constituents'})], [None] when there is no such table and else the
    table with its [tr] rows.  [None.findAll] raises [AttributeError];
    [[1:]] drops the first row when there is one. *)
Definition get_snp500_tickers (page : result (option (list (list string))))
    : result (list string) :=
  table ← page;
  match table with
  | None => Raise (OtherException "AttributeError")
  | Some rows => scrape_rows (drop 1 rows) []
  end.

(** Whether a string begins, or ends, with white space. *)
Definition begins_with_space (s : string) : bool :=
  match s with
  | EmptyString => false
  | String c _ => is_space c
  end.

Fixpoint ends_with_space (s : string) : bool :=
  match s with
  | EmptyString => false
  | String c EmptyString => is_space c
  | String _ s' => ends_with_space s'
  end.

(** ** The script's run *)

(** [l[i]] on a list, for a position counted from the front. *)
Definition getitem_list {A} (l : list A) (i : nat) : result A :=
  match l !! i with
  | Some x => Ok x
  | None => Raise (OtherException "IndexError")
  end.

(** Lines 161-163: the list the two [insert(0, _)] leave. *)
Definition stock_tickers : list string :=
  snp500_ticker :: qqq_ticker :: sample_tickers_4.

(** Lines 164-172: the three calls of the fetcher, each with the objects
    its own constructions yield, and the two calls of the filter. *)
Definition script (yf_all yf_snp500 yf_qqq : nat → string → Stock)
    : result (list record * list value * list value) :=
  stock_tickers_data ← fetch_growth_and_financials yf_all stock_tickers;
  fetched ← fetch_growth_and_financials yf_snp500 [snp500_ticker];
  snp500_data ← getitem_list fetched 0;
  fetched ← fetch_growth_and_financials yf_qqq [qqq_ticker];
  qqq_data ← getitem_list fetched 0;
  snp500_outperformers ← find_outperformers stock_tickers_data snp500_data;
  qqq_outperformers ← find_outperformers stock_tickers_data qqq_data;
  Ok (stock_tickers_data, snp500_outperformers, qqq_outperformers).

(** A provider's object that answers the fundamentals and, for every
    period, a history with the given closes. *)
Definition stock_with_closes (closes : list float) : Stock :=
  {| net_income := Ok (Some (NpFloat64 1000000000));
     marketCap := Ok (Some (PyInt 2500000000));
     total_revenue := Ok (Some (NpFloat64 2500000));
     history := λ _ _, Ok (NpFloat64 <$> closes) |}.

(** The fundamentals of a ticker, as retrieved or as reset by the
    handler, are values [format_currency] accepts. *)
Definition formattable (stock : Stock) : bool :=
  in_domain (fundamentals stock).2 && in_domain (fundamentals stock).1.1
  && in_domain (fundamentals stock).1.2.

(** The keys the filter reads. *)
Definition read_by_filter : list string := "Ticker" :: keys five_year_periods.


(** What the script computes with the sample provider. *)
Definition sample_run : list record * list value * list value :=
  match script sample_yf sample_yf sample_yf with
  | Ok run => run
  | Raise _ => ([], [], [])
  end.

(** * Proof tools *)

(** A decidable fact about the period tables, settled by evaluation. *)
Ltac not_a_period := apply (bool_decide_unpack _); vm_compute; exact I.

(** An equation settled by evaluating both sides. *)
Ltac by_evaluation :=
  lazymatch goal with
  | |- @eq ?A ?a ?b => vm_cast_no_check (@eq_refl A b)
  end.

(** * Properties *)

(** ** The [.2f] rendering *)









Lemma strip_last_app (c : ascii) (s : string) :
  strip_last c (s +:+ String c EmptyString) = Some s.
Proof.
  induction s as [ |a s IH]; simpl.
  - by rewrite Ascii.eqb_refl.
  - rewrite IH. by destruct s.
Qed.

Lemma format_2f_float_result (np : bool) (f : float) :
  format_2f (float_result np f) = Ok (format_2f_float f).
Proof. by destruct np. Qed.

Lemma format_2f_as_float (x : number) (f : float) :
  as_float x = Ok f → format_2f x = Ok (format_2f_float f).
Proof. unfold format_2f. by intros ->. Qed.

Lemma int_to_float_raises (z : Z) (e : exception) :
  int_to_float z = Raise e → e = OverflowError.
Proof.
  unfold int_to_float.
  destruct (finite_sf (binary_normalize prec emax z 0 false)); congruence.
Qed.

Lemma truediv_float_const (x : number) (f c : float) :
  as_float x = Ok f → (c =? 0)%float = false →
  truediv x (PyFloat c) = Ok (float_result (numpy_op x (PyFloat c)) (f / c)%float).
Proof.
  intros Hx Hc. destruct x; unfold truediv; rewrite Hx; simpl; by rewrite ?Hc.
Qed.

Lemma truediv_raises_const (x : number) (e : exception) (c : float) :
  as_float x = Raise e → truediv x (PyFloat c) = Raise e.
Proof. intros Hx. destruct x; unfold truediv; by rewrite Hx. Qed.

Lemma ge_float_int_billion (z : Z) :
  ge_float (PyInt z) 1e9 = (1000000000 <=? z)%Z.
Proof.
  unfold ge_float, int_ge_float.
  change (Prim2SF 1e9) with (S754_finite false 8388608000000000 (-23)).
  cbv beta iota. apply eq_true_iff_eq. rewrite !Z.leb_le. lia.
Qed.

Lemma ge_float_int_million (z : Z) :
  ge_float (PyInt z) 1e6 = (1000000 <=? z)%Z.
Proof.
  unfold ge_float, int_ge_float.
  change (Prim2SF 1e6) with (S754_finite false 8589934592000000 (-33)).
  cbv beta iota. apply eq_true_iff_eq. rewrite !Z.leb_le. lia.
Qed.



Lemma format_currency_billions (x : number) (f : float) :
  as_float x = Ok f → ge_float x 1e9 = true →
  format_currency (Some x) = Ok ("$" +:+ format_2f_float (f / 1e9) +:+ "B").
Proof.
  intros Hx Hb. unfold format_currency. rewrite Hb.
  rewrite (truediv_float_const x f 1e9 Hx eq_refl). simpl.
  by rewrite format_2f_float_result.
Qed.

Lemma format_currency_millions (x : number) (f : float) :
  as_float x = Ok f → ge_float x 1e9 = false → ge_float x 1e6 = true →
  format_currency (Some x) = Ok ("$" +:+ format_2f_float (f / 1e6) +:+ "M").
Proof.
  intros Hx Hb Hm. unfold format_currency. rewrite Hb, Hm.
  rewrite (truediv_float_const x f 1e6 Hx eq_refl). simpl.
  by rewrite format_2f_float_result.
Qed.

Lemma format_currency_plain (x : number) (f : float) :
  as_float x = Ok f → ge_float x 1e9 = false → ge_float x 1e6 = false →
  format_currency (Some x) = Ok ("$" +:+ format_2f_float f).
Proof.
  intros Hx Hb Hm. unfold format_currency. rewrite Hb, Hm.
  by rewrite (format_2f_as_float x f Hx).
Qed.


Lemma append_empty (s : string) : s +:+ EmptyString = s.
Proof.
  induction s as [ |a s IH]; [done| ].
  change (String a (s +:+ EmptyString) = String a s). by rewrite IH.
Qed.

Lemma format_currency_spec_amount (x : number) (f : float) :
  as_float x = Ok f →
  format_currency (Some x)
  = Ok ("$" +:+ format_2f_float (spec_amount x f) +:+ suffix_string (spec_suffix x)).
Proof.
  intros Hx. unfold spec_amount, spec_suffix.
  destruct (ge_float x 1e9) eqn:Hb; [ |destruct (ge_float x 1e6) eqn:Hm].
  - by apply format_currency_billions.
  - by apply format_currency_millions.
  - rewrite (format_currency_plain x f) by done.
    by rewrite append_empty.
Qed.


(** ** The growth calculator *)

Lemma positive_nonzero (s : float) : (0 <? s)%float = true → (s =? 0)%float = false.
Proof.
  rewrite FloatAxioms.ltb_spec, FloatAxioms.eqb_spec.
  change (Prim2SF 0) with (S754_zero false).
  by destruct (Prim2SF s) as [ |[]| |[] m e].
Qed.


Lemma calculate_growth_rate_floats (a b : bool) (s e : float) :
  (0 <? s)%float = true →
  calculate_growth_rate (float_result a s) (float_result b e)
  = Ok (float_result (a || b) ((e - s) / s * 100)%float).
Proof.
  intros Hs%positive_nonzero. unfold calculate_growth_rate.
  destruct a, b; simpl; rewrite ?Hs; reflexivity.
Qed.

(** ** The outperformer filter *)

Lemma getitem_Ok (d : record) (k : string) (v : value) :
  getitem d k = Ok v ↔ d !! k = Some v.
Proof. unfold getitem. destruct (d !! k); split; congruence. Qed.

Lemma bind_Ok {A B} (r : result A) (k : A → result B) (b : B) :
  (r ≫= k) = Ok b ↔ ∃ a, r = Ok a ∧ k a = Ok b.
Proof.
  destruct r as [a|e]; simpl; split.
  - intros H. by exists a.
  - by intros (a' & [= ->] & H).
  - discriminate.
  - by intros (a' & [=] & _).
Qed.

Lemma beats_Ok (stock benchmark_data : record) (period : string) (c : bool) :
  beats stock benchmark_data period = Ok c → c = beats_in stock benchmark_data period.
Proof.
  unfold beats, beats_in. intros (s & Hs%getitem_Ok & H)%bind_Ok. rewrite Hs.
  destruct s as [ |s].
  - by injection H.
  - apply bind_Ok in H as (b & Hb%getitem_Ok & H). rewrite Hb.
    destruct b; by injection H.
Qed.

Lemma all_beats_Ok (stock benchmark_data : record) (periods : list string) (c : bool) :
  all_ (beats stock benchmark_data) periods = Ok c →
  c = forallb (beats_in stock benchmark_data) periods.
Proof.
  induction periods as [ |p periods IH]; simpl.
  - by intros [= <-].
  - intros (c1 & ->%beats_Ok & H)%bind_Ok.
    destruct (beats_in stock benchmark_data p); simpl; [by apply IH|by injection H].
Qed.

Lemma beats_complete (stock benchmark_data : record) (period : string) :
  is_Some (stock !! period) → is_Some (benchmark_data !! period) →
  beats stock benchmark_data period = Ok (beats_in stock benchmark_data period).
Proof.
  intros [s Hs] [b Hb]. unfold beats, beats_in, getitem. rewrite Hs, Hb. simpl.
  destruct s; [done| ]. simpl. rewrite ?Hb. by destruct b.
Qed.

Lemma all_beats_complete (stock benchmark_data : record) (periods : list string) :
  (∀ p, p ∈ periods → is_Some (stock !! p)) →
  (∀ p, p ∈ periods → is_Some (benchmark_data !! p)) →
  all_ (beats stock benchmark_data) periods
  = Ok (forallb (beats_in stock benchmark_data) periods).
Proof.
  intros Hs Hb. induction periods as [ |p periods IH]; [done| ].
  simpl. rewrite beats_complete by (apply Hs || apply Hb; left).
  simpl. destruct (beats_in stock benchmark_data p); [ |done].
  apply IH; intros q Hq; [apply Hs|apply Hb]; by right.
Qed.

Lemma find_outperformers_loop_step (stock : record) (stock_data : list record)
    (benchmark_data : record) (acc : list value) :
  find_outperformers_loop (stock :: stock_data) benchmark_data acc
  = (ticker ← getitem stock "Ticker";
     c ← all_ (beats stock benchmark_data) (keys five_year_periods);
     find_outperformers_loop stock_data benchmark_data
       (if c : bool then acc ++ [ticker] else acc)).
Proof. reflexivity. Qed.

(** One turn of the loop: the record's ticker is appended exactly when
    the record qualifies. *)
Lemma find_outperformers_loop_cons (stock : record) (stock_data : list record)
    (benchmark_data : record) (acc out : list value) :
  find_outperformers_loop (stock :: stock_data) benchmark_data acc = Ok out →
  is_Some (stock !! "Ticker")
  ∧ find_outperformers_loop stock_data benchmark_data
      (if outperforms benchmark_data stock then acc ++ [ticker_of stock] else acc)
    = Ok out.
Proof.
  rewrite find_outperformers_loop_step.
  intros (t & Ht%getitem_Ok & (c & Hc%all_beats_Ok & H)%bind_Ok)%bind_Ok.
  split; [by exists t| ].
  unfold outperforms, ticker_of. rewrite Ht, <- Hc. exact H.
Qed.

Lemma find_outperformers_loop_Ok (stock_data : list record)
    (benchmark_data : record) (acc out : list value) :
  find_outperformers_loop stock_data benchmark_data acc = Ok out →
  out = acc ++ (ticker_of <$> filter (λ r, outperforms benchmark_data r = true) stock_data).
Proof.
  revert acc. induction stock_data as [ |stock stock_data IH]; intros acc.
  - simpl. intros [= <-]. by rewrite app_nil_r.
  - intros [_ H]%find_outperformers_loop_cons. apply IH in H as ->.
    rewrite filter_cons. destruct (outperforms benchmark_data stock) eqn:E.
    + rewrite decide_True by done. by rewrite fmap_cons, <- app_assoc.
    + rewrite decide_False by congruence. done.
Qed.

Lemma find_outperformers_loop_app (l1 l2 : list record)
    (benchmark_data : record) (acc : list value) :
  find_outperformers_loop (l1 ++ l2) benchmark_data acc
  = (mid ← find_outperformers_loop l1 benchmark_data acc;
     find_outperformers_loop l2 benchmark_data mid).
Proof.
  revert acc. induction l1 as [ |stock l1 IH]; intros acc; [done| ].
  rewrite <- app_comm_cons, !find_outperformers_loop_step.
  destruct (getitem stock "Ticker") as [t|e]; [ |done].
  destruct (all_ (beats stock benchmark_data) (keys five_year_periods)) as [c|e]; [ |done].
  apply IH.
Qed.

(** On complete records the filter returns a list. *)
Lemma find_outperformers_loop_complete (stock_data : list record)
    (benchmark_data : record) (acc : list value) :
  Forall complete stock_data →
  (∀ period, period ∈ keys five_year_periods → is_Some (benchmark_data !! period)) →
  ∃ out, find_outperformers_loop stock_data benchmark_data acc = Ok out.
Proof.
  intros Hall Hb. revert acc.
  induction Hall as [ |stock stock_data [[t Ht] Hs] _ IH]; intros acc.
  - by exists acc.
  - rewrite find_outperformers_loop_step. unfold getitem at 1. rewrite Ht.
    rewrite all_beats_complete by done. apply IH.
Qed.

Lemma missing_growth_not_outperforms (stock benchmark_data : record) :
  missing_growth stock benchmark_data → outperforms benchmark_data stock = false.
Proof.
  intros (period & Hin & Hmiss). apply not_true_is_false. intros Hall.
  unfold outperforms in Hall. rewrite forallb_forall in Hall.
  specialize (Hall period). rewrite <- list_elem_of_In in Hall.
  specialize (Hall Hin). unfold beats_in in Hall.
  destruct Hmiss as [Hm|Hm]; rewrite Hm in Hall; [done| ].
  by destruct (stock !! period) as [[]| ].
Qed.

(** ** Conversion of small [int]s *)

Lemma digits2_pos_iter_xO (m k : positive) :
  digits2_pos (Pos.iter xO m k) = (digits2_pos m + k)%positive.
Proof.
  induction k as [ |k IH] using Pos.peano_ind.
  - simpl. lia.
  - rewrite Pos.iter_succ. simpl. rewrite IH. lia.
Qed.

Lemma digits2_pos_lower (m : positive) :
  (2 ^ (Z.pos (digits2_pos m) - 1) <= Z.pos m)%Z.
Proof.
  induction m as [m IH|m IH| ]; simpl digits2_pos.
  - rewrite Pos2Z.inj_succ.
    replace (Z.succ (Z.pos (digits2_pos m)) - 1)%Z with (Z.succ (Z.pos (digits2_pos m) - 1))%Z by lia.
    rewrite Z.pow_succ_r by lia. lia.
  - rewrite Pos2Z.inj_succ.
    replace (Z.succ (Z.pos (digits2_pos m)) - 1)%Z with (Z.succ (Z.pos (digits2_pos m) - 1))%Z by lia.
    rewrite Z.pow_succ_r by lia. lia.
  - reflexivity.
Qed.

Lemma digits2_pos_small (m : positive) :
  (Z.pos m < 2 ^ 53)%Z → (Z.pos (digits2_pos m) <= 53)%Z.
Proof.
  intros Hm. destruct (Z.le_gt_cases (Z.pos (digits2_pos m)) 53) as [ |Hbig]; [done| ].
  pose proof (digits2_pos_lower m) as Hlow.
  assert (2 ^ 53 <= 2 ^ (Z.pos (digits2_pos m) - 1))%Z by (apply Z.pow_le_mono_r; lia).
  lia.
Qed.

Lemma binary_round_small (s : bool) (m : positive) :
  (Z.pos m < 2 ^ 53)%Z → finite_sf (binary_round prec emax s m 0) = true.
Proof.
  intros Hm%digits2_pos_small.
  unfold binary_round, shl_align, fexp, emin, prec, emax.
  set (d := Z.pos (digits2_pos m)) in *.
  replace (Z.max (d + 0 - 53) (3 - 1024 - 53))%Z with (d - 53)%Z by lia.
  replace (d - 53 - 0)%Z with (d - 53)%Z by lia.
  destruct (d - 53)%Z as [ |k|k] eqn:Hk; [ |lia| ].
  - unfold binary_round_aux, shr_fexp, fexp, emin. simpl Zdigits2. fold d.
    replace (Z.max (d + 0 - 53) (3 - 1024 - 53) - 0)%Z with 0%Z by lia.
    simpl. fold d.
    replace (Z.max (d + 0 - 53) (3 - 1024 - 53) - 0)%Z with 0%Z by lia.
    reflexivity.
  - unfold binary_round_aux, shr_fexp, fexp, emin. simpl Zdigits2.
    rewrite digits2_pos_iter_xO. rewrite Pos2Z.inj_add. fold d.
    replace (Z.max (d + Z.pos k + Z.neg k - 53) (3 - 1024 - 53) - Z.neg k)%Z with 0%Z by lia.
    simpl. rewrite digits2_pos_iter_xO. rewrite Pos2Z.inj_add. fold d.
    replace (Z.max (d + Z.pos k + Z.neg k - 53) (3 - 1024 - 53) - Z.neg k)%Z with 0%Z by lia.
    reflexivity.
Qed.

(** An [int] of magnitude below [2 ** 53] converts to [float]. *)
Lemma int_to_float_small (z : Z) :
  (Z.abs z < 2 ^ 53)%Z → returns (int_to_float z) = true.
Proof.
  intros Hz. unfold int_to_float.
  assert (Hfin : finite_sf (binary_normalize prec emax z 0 false) = true).
  { destruct z as [ |m|m]; [reflexivity| | ]; apply binary_round_small; lia. }
  by rewrite Hfin.
Qed.

(** ** The formatters return on their domain *)

Lemma format_2f_returns (x : number) : returns (format_2f x) = returns (as_float x).
Proof. unfold format_2f. by destruct (as_float x). Qed.

Lemma format_currency_returns (value : option number) :
  returns (format_currency value) = in_domain value.
Proof.
  destruct value as [x| ]; [ |done]. simpl in_domain.
  destruct (as_float x) as [f|e] eqn:Hx.
  - by rewrite (format_currency_spec_amount x f Hx).
  - unfold format_currency.
    rewrite !(truediv_raises_const x e) by done.
    unfold format_2f. rewrite Hx. simpl.
    by destruct (ge_float x 1e9), (ge_float x 1e6).
Qed.

Lemma format_percentage_returns (value : option number) :
  returns (format_percentage value) = in_domain value.
Proof.
  destruct value as [x| ]; [ |done]. simpl.
  unfold format_2f. by destruct (as_float x).
Qed.

Lemma as_float_raises (x : number) (e : exception) :
  as_float x = Raise e → e = OverflowError.
Proof. destruct x; simpl; [apply int_to_float_raises|done|done]. Qed.

Lemma format_currency_raises (x : number) :
  in_domain (Some x) = false → format_currency (Some x) = Raise OverflowError.
Proof.
  simpl. destruct (as_float x) as [f|e] eqn:Hx; [done| ]. intros _.
  apply as_float_raises in Hx as He. subst e.
  unfold format_currency. rewrite !(truediv_raises_const x OverflowError) by done.
  unfold format_2f. rewrite Hx. simpl.
  by destruct (ge_float x 1e9), (ge_float x 1e6).
Qed.

Lemma format_percentage_raises (x : number) :
  in_domain (Some x) = false → format_percentage (Some x) = Raise OverflowError.
Proof.
  simpl. destruct (as_float x) as [f|e] eqn:Hx; [done| ]. intros _.
  apply as_float_raises in Hx as He. subst e.
  unfold format_percentage, format_2f. by rewrite Hx.
Qed.

Lemma returns_Ok {A} (r : result A) : returns r = true → ∃ a, r = Ok a.
Proof. destruct r as [a|e]; [by exists a|done]. Qed.

(** ** The fetcher *)

Lemma store_periods_cons (stock : Stock) (name start_date end_date : string)
    (periods : list (string * (string * string))) (r : record) :
  store_periods stock ((name, (start_date, end_date)) :: periods) r
  = store_periods stock periods (<[name := period_growth stock start_date end_date]> r).
Proof. reflexivity. Qed.

Lemma store_periods_other (stock : Stock)
    (periods : list (string * (string * string))) (r : record) (k : string) :
  k ∉ keys periods → store_periods stock periods r !! k = r !! k.
Proof.
  revert r. induction periods as [ |[name [sd ed]] periods IH]; intros r Hk; [done| ].
  unfold keys in Hk. rewrite fmap_cons, not_elem_of_cons in Hk. destruct Hk as [Hne Hk].
  rewrite store_periods_cons, IH by done. by rewrite lookup_insert_ne.
Qed.

Lemma store_periods_lookup (stock : Stock)
    (periods : list (string * (string * string))) (r : record)
    (name start_date end_date : string) :
  NoDup (keys periods) → (name, (start_date, end_date)) ∈ periods →
  store_periods stock periods r !! name
  = Some (period_growth stock start_date end_date).
Proof.
  revert r. induction periods as [ |[n [sd ed]] periods IH]; intros r Hnd Hin.
  - by apply elem_of_nil in Hin.
  - unfold keys in Hnd. rewrite fmap_cons, NoDup_cons in Hnd. destruct Hnd as [Hn Hnd].
    rewrite store_periods_cons. apply elem_of_cons in Hin as [[= -> -> ->]|Hin].
    + rewrite store_periods_other by done. apply lookup_insert_eq.
    + by apply IH.
Qed.

Lemma five_year_periods_NoDup : NoDup (keys five_year_periods).
Proof. apply (bool_decide_unpack _). by vm_compute. Qed.

Lemma fetch_record_Ok (stock : Stock) (ticker : string) (rec : record) :
  fetch_record stock ticker = Ok rec →
  ∃ s_rev s_earn s_cap,
    format_currency (fundamentals stock).2 = Ok s_rev
    ∧ format_currency (fundamentals stock).1.1 = Ok s_earn
    ∧ format_currency (fundamentals stock).1.2 = Ok s_cap
    ∧ rec = store_periods stock five_year_periods
              (<["Market Cap" := VStr s_cap]>
                 (<["Latest Earnings" := VStr s_earn]>
                    (<["Latest Revenue" := VStr s_rev]> {[ "Ticker" := VStr ticker ]}))).
Proof.
  unfold fetch_record. destruct (fundamentals stock) as [[earnings market_cap] revenue].
  intros (s_rev & Hrev & (s_earn & Hearn & (s_cap & Hcap & [= <-])%bind_Ok)%bind_Ok)%bind_Ok.
  by exists s_rev, s_earn, s_cap.
Qed.

Lemma fetch_record_returns (stock : Stock) (ticker : string) :
  in_domain (fundamentals stock).2 = true →
  in_domain (fundamentals stock).1.1 = true →
  in_domain (fundamentals stock).1.2 = true →
  ∃ rec, fetch_record stock ticker = Ok rec.
Proof.
  unfold fetch_record. destruct (fundamentals stock) as [[earnings market_cap] revenue].
  simpl. rewrite <- !format_currency_returns.
  intros [s_rev ->]%returns_Ok [s_earn ->]%returns_Ok [s_cap ->]%returns_Ok.
  by eexists.
Qed.

(** The keys of a record and what is stored under them. *)
Lemma fetch_record_fields (stock : Stock) (ticker : string) (rec : record) :
  fetch_record stock ticker = Ok rec →
  rec !! "Ticker" = Some (VStr ticker)
  ∧ (∃ s, format_currency (fundamentals stock).2 = Ok s
          ∧ rec !! "Latest Revenue" = Some (VStr s))
  ∧ (∃ s, format_currency (fundamentals stock).1.1 = Ok s
          ∧ rec !! "Latest Earnings" = Some (VStr s))
  ∧ (∃ s, format_currency (fundamentals stock).1.2 = Ok s
          ∧ rec !! "Market Cap" = Some (VStr s))
  ∧ (∀ name start_date end_date,
       (name, (start_date, end_date)) ∈ five_year_periods →
       rec !! name = Some (period_growth stock start_date end_date))
  ∧ (∀ name, name ∈ keys ten_year_periods → rec !! name = None).
Proof.
  intros (s_rev & s_earn & s_cap & Hrev & Hearn & Hcap & ->)%fetch_record_Ok.
  split_and!.
  - rewrite store_periods_other by not_a_period. by simplify_map_eq.
  - exists s_rev. split; [done| ].
    rewrite store_periods_other by not_a_period. by simplify_map_eq.
  - exists s_earn. split; [done| ].
    rewrite store_periods_other by not_a_period. by simplify_map_eq.
  - exists s_cap. split; [done| ].
    rewrite store_periods_other by not_a_period. by simplify_map_eq.
  - intros name sd ed Hin. apply store_periods_lookup; [apply five_year_periods_NoDup|done].
  - intros name Hin. unfold keys in Hin. simpl in Hin.
    rewrite !elem_of_cons in Hin.
    destruct Hin as [->|[->|[->|Hin]]]; [ | | |by apply elem_of_nil in Hin];
      rewrite store_periods_other by not_a_period; by simplify_map_eq.
Qed.

Lemma last_cons_default {A} (x d : A) (l : list A) :
  last (x :: l) = Some (List.last (x :: l) d).
Proof.
  revert x. induction l as [ |y l IH]; intros x; [done| ].
  rewrite last_cons_cons. apply IH.
Qed.

(** A growth string under a period comes from the first and the last
    closing price of that period's history. *)
Lemma period_growth_present (stock : Stock) (start_date end_date s : string) :
  period_growth stock start_date end_date = VStr s →
  ∃ data start_price end_price growth_rate,
    history stock start_date end_date = Ok data
    ∧ head data = Some start_price
    ∧ last data = Some end_price
    ∧ calculate_growth_rate start_price end_price = Ok growth_rate
    ∧ format_percentage (Some growth_rate) = Ok s.
Proof.
  unfold period_growth. intros H.
  destruct (history stock start_date end_date) as [[ |start_price data]|e];
    cbv beta iota zeta delta [mbind result_bind try_except] in H.
  - inversion H.
  - pose proof (last_cons_default start_price start_price data) as Hlast.
    remember (List.last (start_price :: data) start_price) as end_price eqn:Hend.
    destruct (calculate_growth_rate start_price end_price) as [g|e] eqn:Hg;
      [ |inversion H].
    destruct (format_percentage (Some g)) as [s'|e] eqn:Hs; [ |inversion H].
    inversion H; subst s'.
    exists (start_price :: data), start_price, end_price, g.
    repeat split; assumption.
  - inversion H.
Qed.

Lemma period_growth_missing (stock : Stock) (start_date end_date : string) :
  history stock start_date end_date = Ok []
  ∨ (∃ e, history stock start_date end_date = Raise e) →
  period_growth stock start_date end_date = VNone.
Proof. unfold period_growth. by intros [->|[e ->]]. Qed.



Section FetcherProperties.

Variable yf_Ticker : nat → string → Stock.

Lemma fetch_loop_step (n : nat) (ticker : string) (tickers : list string)
    (acc : list record) :
  fetch_loop yf_Ticker n (ticker :: tickers) acc
  = (result ← fetch_record (yf_Ticker n ticker) ticker;
     fetch_loop yf_Ticker (S n) tickers (acc ++ [result])).
Proof. reflexivity. Qed.

(** The loop appends one record per ticker, in order; the record at
    position [i] is that of the [i]-th construction. *)
Lemma fetch_loop_Ok (n : nat) (tickers : list string) (acc records : list record) :
  fetch_loop yf_Ticker n tickers acc = Ok records →
  ∃ recs, records = acc ++ recs
          ∧ length recs = length tickers
          ∧ ∀ i ticker, tickers !! i = Some ticker →
              ∃ rec, recs !! i = Some rec
                     ∧ fetch_record (yf_Ticker (n + i) ticker) ticker = Ok rec.
Proof.
  revert n acc. induction tickers as [ |t tickers IH]; intros n acc.
  - simpl. intros [= <-]. exists []. by rewrite app_nil_r.
  - rewrite fetch_loop_step. intros (r & Hr & H)%bind_Ok.
    apply IH in H as (recs & -> & Hlen & Hrecs).
    exists (r :: recs). split_and!.
    + by rewrite <- app_assoc.
    + simpl. by rewrite Hlen.
    + intros [ |i] ticker Hi; simpl in Hi.
      * injection Hi as <-. exists r. by rewrite Nat.add_0_r.
      * destruct (Hrecs i ticker Hi) as (rec & Hrec & Hfetch).
        exists rec. split; [done| ]. by rewrite Nat.add_succ_r.
Qed.

Lemma fetch_loop_returns (n : nat) (tickers : list string) (acc : list record) :
  (∀ i ticker, tickers !! i = Some ticker →
     ∃ rec, fetch_record (yf_Ticker (n + i) ticker) ticker = Ok rec) →
  ∃ records, fetch_loop yf_Ticker n tickers acc = Ok records.
Proof.
  revert n acc. induction tickers as [ |t tickers IH]; intros n acc Hall.
  - by exists acc.
  - rewrite fetch_loop_step.
    destruct (Hall 0 t eq_refl) as [r Hr]. rewrite Nat.add_0_r in Hr. rewrite Hr.
    apply IH. intros i ticker Hi. rewrite Nat.add_succ_l, <- Nat.add_succ_r.
    by apply (Hall (S i)).
Qed.

Lemma fetch_growth_and_financials_Ok (tickers : list string) (records : list record) :
  fetch_growth_and_financials yf_Ticker tickers = Ok records →
  length records = length tickers
  ∧ ∀ i ticker, tickers !! i = Some ticker →
      ∃ rec, records !! i = Some rec
             ∧ fetch_record (yf_Ticker i ticker) ticker = Ok rec.
Proof.
  intros (recs & -> & Hlen & H)%fetch_loop_Ok. by rewrite app_nil_l.
Qed.

End FetcherProperties.

(** ** Shared lemmas on the formatters and the fetcher *)

Lemma format_not_finite (g : float) :
  is_finite g = false →
  format_2f_float g = "inf" ∨ format_2f_float g = "-inf" ∨ format_2f_float g = "nan".
Proof.
  unfold is_finite, format_2f_float.
  destruct (Prim2SF g) as [ |[]| | ]; try discriminate; auto.
Qed.



Lemma fetch_record_returns_iff (stock : Stock) (ticker : string) :
  returns (fetch_record stock ticker)
  = in_domain (fundamentals stock).2 && in_domain (fundamentals stock).1.1
    && in_domain (fundamentals stock).1.2.
Proof.
  unfold fetch_record. destruct (fundamentals stock) as [[earnings market_cap] revenue].
  cbv beta iota delta [fst snd]. rewrite <- !format_currency_returns.
  by destruct (format_currency revenue), (format_currency earnings),
       (format_currency market_cap).
Qed.


Lemma fetch_returns_formattable
    (yf_Ticker : nat → string → Stock) (tickers : list string) :
  (∀ i ticker, tickers !! i = Some ticker → formattable (yf_Ticker i ticker) = true) →
  ∃ records, fetch_growth_and_financials yf_Ticker tickers = Ok records.
Proof.
  intros Hall. apply fetch_loop_returns.
  intros i ticker Hi. apply returns_Ok. rewrite fetch_record_returns_iff.
  by apply (Hall i ticker).
Qed.



(** The sample provider gives fundamentals the formatter accepts. *)
Lemma sample_yf_formattable (i : nat) (ticker : string) :
  formattable (sample_yf i ticker) = true.
Proof.
  unfold formattable, fundamentals, retrieve_fundamentals, sample_yf.
  cbn [net_income marketCap total_revenue].
  destruct (i =? 0)%nat; by_evaluation.
Qed.

(** * The claims *)










(** C5 (as amended): both formatters return a string exactly on [None],
    on every float (not-a-number and the infinities included) and on
    every [int] that [float()] converts, which every [int] of magnitude
    below [2 ** 53] is; on the other [int]s both raise [OverflowError]. *)
Theorem formatters_return_on_domain (value : option number) :
  returns (format_currency value) = in_domain value
  ∧ returns (format_percentage value) = in_domain value
  ∧ in_domain None = true
  ∧ (∀ f, in_domain (Some (PyFloat f)) = true ∧ in_domain (Some (NpFloat64 f)) = true)
  ∧ (∀ z, in_domain (Some (PyInt z)) = returns (int_to_float z))
  ∧ (∀ z, (Z.abs z < 2 ^ 53)%Z → in_domain (Some (PyInt z)) = true)
  ∧ (if in_domain value then True
     else format_currency value = Raise OverflowError
          ∧ format_percentage value = Raise OverflowError).
Proof.
  split; [apply format_currency_returns| ].
  split; [apply format_percentage_returns| ].
  split; [reflexivity| ].
  split; [intros f; split; reflexivity| ].
  split; [intros z; reflexivity| ].
  split; [exact int_to_float_small| ].
  destruct value as [x| ]; [ |exact I].
  destruct (in_domain (Some x)) eqn:E; [exact I| ].
  split; [by apply format_currency_raises|by apply format_percentage_raises].
Qed.

Lemma formatters_return_on_domain_witness :
  (Z.abs 2500000000 < 2 ^ 53)%Z
  ∧ returns (format_currency (Some (PyInt 2500000000))) = true
  ∧ returns (format_percentage (Some (PyInt 2500000000))) = true.
Proof.
  assert (Hsmall : (Z.abs 2500000000 < 2 ^ 53)%Z) by reflexivity.
  pose proof (formatters_return_on_domain (Some (PyInt 2500000000)))
    as (Hcurrency & Hpercentage & _ & _ & _ & Hdomain & _).
  split; [exact Hsmall| ].
  split; [exact (eq_trans Hcurrency (Hdomain _ Hsmall))
         |exact (eq_trans Hpercentage (Hdomain _ Hsmall))].
Defined.

(** C5 fails as stated: on the numeric value [10 ** 400] both formatters
    raise. *)
Lemma formatters_raise_on_huge_int :
  format_currency (Some (PyInt (10 ^ 400))) = Raise OverflowError
  ∧ format_percentage (Some (PyInt (10 ^ 400))) = Raise OverflowError
  ∧ format_currency (Some (PyInt (- 10 ^ 400))) = Raise OverflowError.
Proof. split_and!; by_evaluation. Qed.

(** C7: in a record produced by [fetch_growth_and_financials], every 5-year
    period has a value; a growth string is stored only when that period's
    price history was retrieved and is not empty, and it is then computed
    from the first and the last closing price; when the history is empty
    or its retrieval raises, the value is [None]. *)
Theorem fetch_growth_present_only_with_prices
    (yf_Ticker : nat → string → Stock) (tickers : list string)
    (records : list record) (i : nat) (ticker : string) (rec : record)
    (name start_date end_date : string) :
  fetch_growth_and_financials yf_Ticker tickers = Ok records →
  tickers !! i = Some ticker →
  records !! i = Some rec →
  (name, (start_date, end_date)) ∈ five_year_periods →
  let answer := history (yf_Ticker i ticker) start_date end_date in
  (rec !! name = Some VNone ∨ ∃ s, rec !! name = Some (VStr s))
  ∧ (∀ s, rec !! name = Some (VStr s) →
       ∃ data start_price end_price growth_rate,
         answer = Ok data
         ∧ head data = Some start_price
         ∧ last data = Some end_price
         ∧ calculate_growth_rate start_price end_price = Ok growth_rate
         ∧ format_percentage (Some growth_rate) = Ok s)
  ∧ (answer = Ok [] ∨ (∃ e, answer = Raise e) → rec !! name = Some VNone).
Proof.
  intros Hfetch Hi Hrec Hin answer.
  apply fetch_growth_and_financials_Ok in Hfetch as [_ Hrecs].
  destruct (Hrecs i ticker Hi) as (rec' & Hrec' & Hfields).
  assert (rec' = rec) as -> by congruence.
  apply fetch_record_fields in Hfields as (_ & _ & _ & _ & Hperiods & _).
  specialize (Hperiods name start_date end_date Hin).
  split_and!.
  - rewrite Hperiods.
    destruct (period_growth (yf_Ticker i ticker) start_date end_date) as [ |s];
      [by left|right; by exists s].
  - intros s Hs. rewrite Hperiods in Hs. injection Hs as Hs.
    by apply period_growth_present.
  - intros Hmissing. rewrite Hperiods. f_equal. by apply period_growth_missing.
Qed.

Lemma fetch_growth_present_only_with_prices_witness :
  fetch_growth_and_financials sample_yf ["SPY"; "QQQ"] = Ok sample_records
  ∧ ["SPY"; "QQQ"] !! 0%nat = Some "SPY"
  ∧ sample_records !! 0%nat = Some sample_record_SPY
  ∧ ("1999-2004", ("1999-01-01", "2004-01-01")) ∈ five_year_periods
  ∧ history (sample_yf 0 "SPY") "1999-01-01" "2004-01-01" = Ok []
  ∧ sample_record_SPY !! "1999-2004" = Some VNone.
Proof.
  assert (Hfetch : fetch_growth_and_financials sample_yf ["SPY"; "QQQ"] = Ok sample_records)
    by by_evaluation.
  assert (Hrec : sample_records !! 0%nat = Some sample_record_SPY)
    by by_evaluation.
  assert (Hin : ("1999-2004", ("1999-01-01", "2004-01-01")) ∈ five_year_periods)
    by not_a_period.
  assert (Hempty : history (sample_yf 0 "SPY") "1999-01-01" "2004-01-01" = Ok [])
    by by_evaluation.
  split; [exact Hfetch| ]. split; [reflexivity| ]. split; [exact Hrec| ].
  split; [exact Hin| ]. split; [exact Hempty| ].
  exact (proj2 (proj2 (fetch_growth_present_only_with_prices sample_yf
           ["SPY"; "QQQ"] sample_records 0 "SPY" sample_record_SPY
           "1999-2004" "1999-01-01" "2004-01-01" Hfetch eq_refl Hrec Hin))
         (or_introl Hempty)).
Defined.




Lemma getitem_insert_ne (d : record) (k name : string) (v : value) :
  name ≠ k → getitem (<[name := v]> d) k = getitem d k.
Proof. intros Hne. unfold getitem. by rewrite lookup_insert_ne. Qed.

Lemma all_ext {A} (f g : A → result bool) (xs : list A) :
  (∀ x, x ∈ xs → f x = g x) → all_ f xs = all_ g xs.
Proof.
  induction xs as [ |x xs IH]; intros Hfg; [done| ].
  simpl. rewrite (Hfg x) by left. destruct (g x) as [[]|e]; simpl; try done.
  apply IH. intros y Hy. apply Hfg. by right.
Qed.

(** The filter reads nothing under a 10-year label: storing values there,
    in the records or in the benchmark, changes no result. *)
Lemma find_outperformers_ignores_ten_year (stock_data : list record)
    (benchmark_data : record) (name : string) (v w : value) :
  name ∈ keys ten_year_periods →
  find_outperformers (insert name v <$> stock_data) (<[name := w]> benchmark_data)
  = find_outperformers stock_data benchmark_data.
Proof.
  intros Hname.
  assert (Hticker : name ≠ "Ticker").
  { intros ->. revert Hname. not_a_period. }
  assert (Hperiod : ∀ p, p ∈ keys five_year_periods → name ≠ p).
  { intros p Hp ->. revert Hname. unfold keys in *. simpl in *.
    rewrite !elem_of_cons in Hp. rewrite !elem_of_cons.
    destruct Hp as [->|[->|[->|[->|[->|[->|Hp]]]]]];
      [..|by apply elem_of_nil in Hp];
      (intros [?|[?|[?|Hnil]]]; [done..|by apply elem_of_nil in Hnil]). }
  unfold find_outperformers. generalize (@nil value) as acc.
  induction stock_data as [ |stock stock_data IH]; intros acc; [done| ].
  rewrite fmap_cons, !find_outperformers_loop_step.
  rewrite getitem_insert_ne by done.
  destruct (getitem stock "Ticker") as [t|e]; [ |done].
  rewrite (all_ext (beats (<[name:=v]> stock) (<[name:=w]> benchmark_data))
             (beats stock benchmark_data)).
  - destruct (all_ (beats stock benchmark_data) (keys five_year_periods)) as [c|e];
      [ |done]. apply IH.
  - intros p Hp. unfold beats. by rewrite !getitem_insert_ne by by apply Hperiod.
Qed.

(** C9: the fetcher stores a value under every 5-year label and under no
    10-year label: the 10-year growth figures are never computed. *)
Theorem fetch_stores_no_ten_year_growth
    (yf_Ticker : nat → string → Stock) (tickers : list string)
    (records : list record) (rec : record) :
  fetch_growth_and_financials yf_Ticker tickers = Ok records →
  rec ∈ records →
  (∀ name, name ∈ keys five_year_periods → is_Some (rec !! name))
  ∧ (∀ name, name ∈ keys ten_year_periods → rec !! name = None).
Proof.
  intros Hfetch (i & Hi)%list_elem_of_lookup.
  apply fetch_growth_and_financials_Ok in Hfetch as [Hlen Hrecs].
  destruct (lookup_lt_is_Some_2 tickers i) as [ticker Hticker].
  { rewrite <- Hlen. by eapply lookup_lt_Some. }
  destruct (Hrecs i ticker Hticker) as (rec' & Hrec' & Hfields).
  assert (rec' = rec) as -> by congruence.
  apply fetch_record_fields in Hfields as (_ & _ & _ & _ & Hfive & Hten).
  split; [ |done].
  intros name ([n [sd ed]] & -> & Hin)%list_elem_of_fmap.
  simpl. rewrite (Hfive n sd ed Hin). by eexists.
Qed.

Lemma fetch_stores_no_ten_year_growth_witness :
  fetch_growth_and_financials sample_yf ["SPY"; "QQQ"] = Ok sample_records
  ∧ Forall (λ rec, rec !! "1994-2004" = None ∧ rec !! "2004-2014" = None
                   ∧ rec !! "2014-2024" = None) sample_records.
Proof.
  assert (Hfetch : fetch_growth_and_financials sample_yf ["SPY"; "QQQ"] = Ok sample_records)
    by by_evaluation.
  split; [exact Hfetch| ].
  apply Forall_forall. intros rec Hrec.
  pose proof (proj2 (fetch_stores_no_ten_year_growth sample_yf ["SPY"; "QQQ"]
                       sample_records rec Hfetch Hrec)) as Hten.
  split_and!; apply Hten; not_a_period.
Defined.

(** C1: on the scenario of the specification the filter returns A and C.
    The growth values it compares are the strings [format_percentage]
    made, and it compares them as strings: ["9.00%"] is above ["10.00%"]
    although 9 is below 10, so C, which the specification excludes,
    qualifies. *)
Theorem find_outperformers_compares_strings :
  find_outperformers [scenario_A; scenario_B; scenario_C] scenario_benchmark
  = Ok [VStr "A"; VStr "C"]
  ∧ format_percentage (Some (NpFloat64 9)) = Ok "9.00%"
  ∧ format_percentage (Some (NpFloat64 10)) = Ok "10.00%"
  ∧ (9 <? 10)%float = true
  ∧ str_gt "9.00%" "10.00%" = true.
Proof. split_and!; by_evaluation. Qed.

(** C6: a record with a growth value missing in some 5-year period, its own
    or the benchmark's, adds nothing to the returned list: the list is the
    one returned without that record, and it does not hold the record's
    ticker unless another record carries the same ticker. *)
Theorem find_outperformers_excludes_missing
    (before : list record) (stock : record) (after : list record)
    (benchmark_data : record) (out : list value) :
  find_outperformers (before ++ stock :: after) benchmark_data = Ok out →
  missing_growth stock benchmark_data →
  find_outperformers (before ++ after) benchmark_data = Ok out
  ∧ (ticker_of stock ∉ ticker_of <$> (before ++ after) → ticker_of stock ∉ out).
Proof.
  unfold find_outperformers. rewrite !find_outperformers_loop_app.
  intros (mid & Hmid & Hrest)%bind_Ok Hmissing.
  apply find_outperformers_loop_cons in Hrest as [_ Hrest].
  rewrite (missing_growth_not_outperforms _ _ Hmissing) in Hrest.
  assert (Hout : (mid ← find_outperformers_loop before benchmark_data [];
                  find_outperformers_loop after benchmark_data mid) = Ok out).
  { by rewrite Hmid. }
  split; [done| ].
  rewrite <- find_outperformers_loop_app in Hout.
  apply find_outperformers_loop_Ok in Hout as ->. simpl.
  intros Hfresh Hin. apply Hfresh.
  apply list_elem_of_fmap in Hin as (r & -> & Hr%list_elem_of_filter).
  apply list_elem_of_fmap. exists r. by destruct Hr.
Qed.

Lemma find_outperformers_excludes_missing_witness :
  find_outperformers ([scenario_A] ++ scenario_B :: [scenario_C]) scenario_benchmark
  = Ok [VStr "A"; VStr "C"]
  ∧ missing_growth scenario_B scenario_benchmark
  ∧ find_outperformers ([scenario_A] ++ [scenario_C]) scenario_benchmark
    = Ok [VStr "A"; VStr "C"].
Proof.
  assert (Hrun : find_outperformers ([scenario_A] ++ scenario_B :: [scenario_C])
                   scenario_benchmark = Ok [VStr "A"; VStr "C"]) by by_evaluation.
  assert (Hmissing : missing_growth scenario_B scenario_benchmark).
  { exists "1999-2004". split; [not_a_period|left; by_evaluation]. }
  split; [exact Hrun| ]. split; [exact Hmissing| ].
  exact (proj1 (find_outperformers_excludes_missing [scenario_A] scenario_B
                  [scenario_C] scenario_benchmark _ Hrun Hmissing)).
Defined.

(** C10: the list [find_outperformers] returns holds the ticker of each
    qualifying record once, in the order of the input records, and so is
    a sublist of the input's tickers; on records that have a ticker and
    every 5-year period, with a benchmark that has every 5-year period, a
    list is returned. *)
Theorem find_outperformers_ordered_sublist
    (stock_data : list record) (benchmark_data : record) :
  (∀ out, find_outperformers stock_data benchmark_data = Ok out →
     out = ticker_of <$> filter (λ r, outperforms benchmark_data r = true) stock_data
     ∧ out `sublist_of` (ticker_of <$> stock_data))
  ∧ (Forall complete stock_data →
     (∀ period, period ∈ keys five_year_periods → is_Some (benchmark_data !! period)) →
     ∃ out, find_outperformers stock_data benchmark_data = Ok out).
Proof.
  split.
  - intros out ->%find_outperformers_loop_Ok. simpl. split; [done| ].
    apply fmap_sublist, sublist_filter.
  - intros Hcomplete Hbench. by apply find_outperformers_loop_complete.
Qed.

Lemma find_outperformers_ordered_sublist_witness :
  find_outperformers [scenario_A; scenario_B; scenario_C] scenario_benchmark
  = Ok [VStr "A"; VStr "C"]
  ∧ [VStr "A"; VStr "C"]
    `sublist_of` (ticker_of <$> [scenario_A; scenario_B; scenario_C]).
Proof.
  assert (Hrun : find_outperformers [scenario_A; scenario_B; scenario_C]
                   scenario_benchmark = Ok [VStr "A"; VStr "C"]) by by_evaluation.
  split; [exact Hrun| ].
  exact (proj2 (proj1 (find_outperformers_ordered_sublist
                         [scenario_A; scenario_B; scenario_C] scenario_benchmark)
                  _ Hrun)).
Defined.

(** * Further properties *)

(** ** Floats at the edges *)

Lemma float_of_spec (x : float) (v : spec_float) :
  Prim2SF x = v → x = SF2Prim v.
Proof. intros <-. symmetry. apply SF2Prim_Prim2SF. Qed.

(** With a zero divisor the numpy quotient is an infinity or not-a-number. *)
Lemma growth_zero_start_spec (zs : bool) (e : spec_float) :
  finite_sf
    (SF64mul (SF64div (SF64sub e (S754_zero zs)) (S754_zero zs)) (Prim2SF 100))
  = false.
Proof.
  change (Prim2SF 100) with (S754_finite false 7036874417766400 (-46)).
  destruct e as [[]|[]| |[] m ex], zs; reflexivity.
Qed.

Lemma zero_float_spec (s : float) :
  (s =? 0)%float = true → ∃ zs, Prim2SF s = S754_zero zs.
Proof.
  rewrite FloatAxioms.eqb_spec. change (Prim2SF 0) with (S754_zero false).
  destruct (Prim2SF s) as [zs|[]| |[] m e]; try discriminate. by exists zs.
Qed.

Lemma growth_zero_start_numpy (s e : float) :
  (s =? 0)%float = true →
  is_finite ((e - s) / s * 100)%float = false.
Proof.
  intros [zs Hs]%zero_float_spec. unfold is_finite.
  rewrite mul_spec, div_spec, sub_spec, Hs. apply growth_zero_start_spec.
Qed.

Lemma growth_flat_spec (m : positive) (ex : Z) :
  SF64mul (SF64div (SF64sub (S754_finite false m ex) (S754_finite false m ex))
             (S754_finite false m ex)) (Prim2SF 100)
  = S754_zero false.
Proof.
  change (Prim2SF 100) with (S754_finite false 7036874417766400 (-46)).
  unfold SF64sub, SFsub. cbv zeta. unfold cond_Zopp. rewrite Z.sub_diag.
  reflexivity.
Qed.

Lemma positive_finite_spec (s : float) :
  (0 <? s)%float = true → is_finite s = true →
  ∃ m ex, Prim2SF s = S754_finite false m ex.
Proof.
  rewrite FloatAxioms.ltb_spec. unfold is_finite.
  change (Prim2SF 0) with (S754_zero false).
  destruct (Prim2SF s) as [[]|[]| |[] m e]; try discriminate. by exists m, e.
Qed.

Lemma growth_flat (s : float) :
  (0 <? s)%float = true → is_finite s = true →
  ((s - s) / s * 100)%float = 0%float.
Proof.
  intros Hpos Hfin. destruct (positive_finite_spec s Hpos Hfin) as (m & ex & Hs).
  apply Prim2SF_inj. rewrite mul_spec, div_spec, sub_spec, Hs.
  apply growth_flat_spec.
Qed.

Lemma iter_xO_pow2 (m k : positive) :
  Z.pos (Pos.iter xO m k) = (Z.pos m * 2 ^ Z.pos k)%Z.
Proof.
  induction k as [ |k IH] using Pos.peano_ind.
  - simpl. lia.
  - rewrite Pos.iter_succ, Pos2Z.inj_xO, IH, Pos2Z.inj_succ, Z.pow_succ_r by lia. lia.
Qed.

(** The float a small [int] converts to: the same value, with a mantissa
    of 53 bits. *)
Lemma binary_round_small_spec (s : bool) (m : positive) :
  (Z.pos m < 2 ^ 53)%Z →
  ∃ mz ez, binary_round prec emax s m 0 = S754_finite s mz ez
           ∧ valid_binary (S754_finite s mz ez) = true
           ∧ match ez with
             | Zneg k => Z.pos mz = (Z.pos m * 2 ^ Z.pos k)%Z
             | _ => ez = 0%Z ∧ mz = m
             end.
Proof.
  intros Hm%digits2_pos_small.
  unfold binary_round, shl_align, fexp, emin, prec, emax.
  set (d := Z.pos (digits2_pos m)) in *.
  replace (Z.max (d + 0 - 53) (3 - 1024 - 53))%Z with (d - 53)%Z by lia.
  replace (d - 53 - 0)%Z with (d - 53)%Z by lia.
  destruct (d - 53)%Z as [ |k|k] eqn:Hk; [ |lia| ].
  - exists m, 0%Z.
    unfold binary_round_aux, shr_fexp, fexp, emin. simpl Zdigits2. fold d.
    replace (Z.max (d + 0 - 53) (3 - 1024 - 53) - 0)%Z with 0%Z by lia.
    simpl. fold d.
    replace (Z.max (d + 0 - 53) (3 - 1024 - 53) - 0)%Z with 0%Z by lia.
    split; [reflexivity| ]. split; [ |done].
    unfold valid_binary, SpecFloat.valid_binary, bounded, canonical_mantissa, fexp, emin,
      FloatOps.prec, FloatOps.emax. fold d.
    replace (Z.max (d + 0 - 53) (3 - 1024 - 53))%Z with 0%Z by lia. reflexivity.
  - exists (Pos.iter xO m k), (Z.neg k).
    unfold binary_round_aux, shr_fexp, fexp, emin. simpl Zdigits2.
    rewrite digits2_pos_iter_xO. rewrite Pos2Z.inj_add. fold d.
    replace (Z.max (d + Z.pos k + Z.neg k - 53) (3 - 1024 - 53) - Z.neg k)%Z with 0%Z by lia.
    simpl. rewrite digits2_pos_iter_xO. rewrite Pos2Z.inj_add. fold d.
    replace (Z.max (d + Z.pos k + Z.neg k - 53) (3 - 1024 - 53) - Z.neg k)%Z with 0%Z by lia.
    split; [reflexivity| ]. split; [ |apply iter_xO_pow2].
    unfold valid_binary, SpecFloat.valid_binary, bounded, canonical_mantissa, fexp, emin,
      FloatOps.prec, FloatOps.emax.
    rewrite digits2_pos_iter_xO, Pos2Z.inj_add. fold d.
    replace (Z.max (d + Z.pos k + Z.neg k - 53) (3 - 1024 - 53))%Z with (Z.neg k) by lia.
    rewrite Z.eqb_refl. reflexivity.
Qed.

Lemma hundredths_exact (m mz : positive) (ez : Z) :
  match ez with
  | Zneg k => Z.pos mz = (Z.pos m * 2 ^ Z.pos k)%Z
  | _ => ez = 0%Z ∧ mz = m
  end →
  hundredths mz ez = (100 * Z.pos m)%Z.
Proof.
  unfold hundredths. destruct ez as [ |k|k].
  - intros [_ ->]. lia.
  - intros [[=] _].
  - intros ->. unfold round_half_even.
    assert (Hpow : (0 < 2 ^ Z.pos k)%Z) by (apply Z.pow_pos_nonneg; lia).
    replace (100 * (Z.pos m * 2 ^ Z.pos k))%Z with (100 * Z.pos m * 2 ^ Z.pos k)%Z by lia.
    rewrite Z.mod_mul, Z.div_mul by lia.
    replace (2 * 0)%Z with 0%Z by lia.
    destruct (Z.compare_spec 0 (2 ^ Z.pos k)); lia.
Qed.

Lemma fixed2_whole (negative : bool) (n : Z) :
  (0 <= n)%Z →
  fixed2 negative (100 * n) = (if negative then "-" else "") +:+ decimal n +:+ ".00".
Proof.
  intros Hn. unfold fixed2.
  replace (100 * n / 100)%Z with n by (rewrite Z.mul_comm, Z.div_mul; lia).
  replace (100 * n / 10 mod 10)%Z with 0%Z.
  2:{ replace (100 * n)%Z with (10 * n * 10)%Z by lia.
      rewrite Z.div_mul by lia. rewrite Z.mul_comm, Z.mod_mul; lia. }
  replace (100 * n mod 10)%Z with 0%Z.
  2:{ replace (100 * n)%Z with (10 * n * 10)%Z by lia. rewrite Z.mod_mul; lia. }
  reflexivity.
Qed.

(** An [int] of magnitude below [2 ** 53] is printed in full, followed by
    two zero decimals. *)
Lemma int_to_float_small_spec (z : Z) :
  (Z.abs z < 2 ^ 53)%Z → z ≠ 0%Z →
  ∃ f mz ez, int_to_float z = Ok f
             ∧ Prim2SF f = S754_finite (z <? 0)%Z mz ez
             ∧ hundredths mz ez = (100 * Z.abs z)%Z.
Proof.
  intros Hz Hne. unfold int_to_float.
  destruct z as [ |m|m]; [done| | ]; cbv beta iota delta [binary_normalize].
  - destruct (binary_round_small_spec false m) as (mz & ez & Hround & Hvalid & Hvalue);
      [lia| ].
    rewrite Hround. exists (SF2Prim (S754_finite false mz ez)), mz, ez.
    split; [reflexivity| ]. split; [by apply Prim2SF_SF2Prim| ].
    by apply hundredths_exact.
  - destruct (binary_round_small_spec true m) as (mz & ez & Hround & Hvalid & Hvalue);
      [lia| ].
    rewrite Hround. exists (SF2Prim (S754_finite true mz ez)), mz, ez.
    split; [reflexivity| ]. split; [by apply Prim2SF_SF2Prim| ].
    by apply hundredths_exact.
Qed.

(** An [int] of magnitude below [2 ** 53] is printed in full, followed by
    two zero decimals. *)
Lemma format_2f_small_int (z : Z) :
  (Z.abs z < 2 ^ 53)%Z →
  format_2f (PyInt z)
  = Ok ((if (z <? 0)%Z then "-" else "") +:+ decimal (Z.abs z) +:+ ".00").
Proof.
  intros Hz. destruct (Z.eq_dec z 0%Z) as [->|Hne]; [reflexivity| ].
  destruct (int_to_float_small_spec z Hz Hne) as (f & mz & ez & Hf & Hsf & Hq).
  unfold format_2f, as_float. rewrite Hf.
  cbv beta iota delta [mbind result_bind].
  unfold format_2f_float. rewrite Hsf, Hq. f_equal.
  apply fixed2_whole. lia.
Qed.

(** ** The formatters, further *)

(** X1: an [int] of magnitude below [2 ** 53] is printed in full with two
    zero decimals: by [format_percentage] always, by [format_currency]
    when it is below one million, a loss of any such size included. *)
Theorem formatters_print_small_ints_in_full (z : Z) :
  (Z.abs z < 2 ^ 53)%Z →
  format_percentage (Some (PyInt z))
  = Ok (((if (z <? 0)%Z then "-" else "") +:+ decimal (Z.abs z) +:+ ".00") +:+ "%")
  ∧ ((z < 1000000)%Z →
     format_currency (Some (PyInt z))
     = Ok ("$" +:+ (if (z <? 0)%Z then "-" else "") +:+ decimal (Z.abs z) +:+ ".00")).
Proof.
  intros Hz. pose proof (format_2f_small_int z Hz) as Hformat. split.
  - unfold format_percentage. by rewrite Hformat.
  - intros Hsmall. unfold format_currency.
    rewrite ge_float_int_billion, ge_float_int_million.
    destruct (Z.leb_spec 1000000000 z); [lia| ].
    destruct (Z.leb_spec 1000000 z); [lia| ].
    by rewrite Hformat.
Qed.

Lemma formatters_print_small_ints_in_full_witness :
  (Z.abs (-1500) < 2 ^ 53)%Z
  ∧ format_percentage (Some (PyInt (-1500))) = Ok "-1500.00%".
Proof.
  split; [reflexivity| ].
  exact (proj1 (formatters_print_small_ints_in_full (-1500) eq_refl)).
Defined.

(** X2: the missing-value string is returned for [None] only: no number,
    not-a-number included, is printed as ["N/A"]. *)
Theorem formatters_missing_only_for_None (x : number) :
  format_currency (Some x) ≠ Ok "N/A"
  ∧ format_percentage (Some x) ≠ Ok "N/A"
  ∧ format_currency None = Ok "N/A"
  ∧ format_percentage None = Ok "N/A".
Proof.
  split_and!; try reflexivity.
  - destruct (as_float x) as [f|e] eqn:Hx.
    + rewrite (format_currency_spec_amount x f Hx). intros [=].
    + intros Hout.
      pose proof (format_currency_returns (Some x)) as Hreturns.
      rewrite Hout in Hreturns. simpl in Hreturns. by rewrite Hx in Hreturns.
  - unfold format_percentage. destruct (format_2f x) as [s|e]; [ |done].
    cbv beta iota delta [mbind result_bind]. intros [= Hout].
    pose proof (strip_last_app "%" s) as Hstrip. rewrite Hout in Hstrip.
    discriminate Hstrip.
Qed.

Lemma negative_below_thresholds (f : float) :
  (f <? 0)%float = true →
  (1e9 <=? f)%float = false ∧ (1e6 <=? f)%float = false
  ∧ ∃ rest, format_2f_float f = "-" +:+ rest.
Proof.
  rewrite FloatAxioms.ltb_spec, !FloatAxioms.leb_spec. unfold format_2f_float.
  change (Prim2SF 0) with (S754_zero false).
  change (Prim2SF 1e9) with (S754_finite false 8388608000000000 (-23)).
  change (Prim2SF 1e6) with (S754_finite false 8589934592000000 (-33)).
  destruct (Prim2SF f) as [[]|[]| |[] m e]; try discriminate; intros _.
  - split_and!; try reflexivity. by exists "inf".
  - split_and!; try reflexivity. unfold fixed2. by eexists.
Qed.

(** X3: a negative float amount, however large the loss, gets no
    magnitude suffix: it is printed in full after ["$-"]. *)
Theorem format_currency_negative_unscaled (np : bool) (f : float) :
  (f <? 0)%float = true →
  format_currency (Some (float_result np f)) = Ok ("$" +:+ format_2f_float f)
  ∧ ∃ rest, format_currency (Some (float_result np f)) = Ok ("$-" +:+ rest).
Proof.
  intros (Hb & Hm & rest & Hrest)%negative_below_thresholds.
  assert (Hout : format_currency (Some (float_result np f))
                 = Ok ("$" +:+ format_2f_float f)).
  { apply format_currency_plain; by destruct np. }
  split; [exact Hout| ]. exists rest. by rewrite Hout, Hrest.
Qed.

Lemma format_currency_negative_unscaled_witness :
  (-5000000000 <? 0)%float = true
  ∧ format_currency (Some (NpFloat64 (-5000000000))) = Ok "$-5000000000.00".
Proof.
  split; [reflexivity| ].
  exact (proj1 (format_currency_negative_unscaled true (-5000000000) eq_refl)).
Defined.

(** ** The growth calculator, further *)

(** X4: with a zero start price, positive or negative zero, the function
    raises [ZeroDivisionError] on Python floats and on [int]s, whereas on
    [numpy.float64] prices it returns an infinity or not-a-number, never
    a finite growth. *)
Theorem calculate_growth_rate_zero_start (s e : float) :
  (s =? 0)%float = true →
  calculate_growth_rate (PyFloat s) (PyFloat e) = Raise ZeroDivisionError
  ∧ (∀ ze, calculate_growth_rate (PyInt 0) (PyInt ze) = Raise ZeroDivisionError)
  ∧ calculate_growth_rate (NpFloat64 s) (NpFloat64 e)
    = Ok (NpFloat64 ((e - s) / s * 100)%float)
  ∧ is_finite ((e - s) / s * 100)%float = false.
Proof.
  intros Hs. split_and!.
  - unfold calculate_growth_rate, sub, truediv. simpl. by rewrite Hs.
  - intros ze. reflexivity.
  - reflexivity.
  - by apply growth_zero_start_numpy.
Qed.

Lemma calculate_growth_rate_zero_start_witness :
  (0 =? 0)%float = true
  ∧ calculate_growth_rate (NpFloat64 0) (NpFloat64 50) = Ok (NpFloat64 infinity)
  ∧ calculate_growth_rate (PyFloat 0) (PyFloat 50) = Raise ZeroDivisionError.
Proof.
  split; [reflexivity| ].
  pose proof (calculate_growth_rate_zero_start 0 50 eq_refl) as (Hpy & _ & Hnp & _).
  split; [exact Hnp|exact Hpy].
Defined.

(** X5: equal positive finite prices give a growth of exactly zero, in
    either float flavour. *)
Theorem calculate_growth_rate_flat (np : bool) (s : float) :
  (0 <? s)%float = true → is_finite s = true →
  calculate_growth_rate (float_result np s) (float_result np s)
  = Ok (float_result np 0).
Proof.
  intros Hpos Hfin.
  rewrite (calculate_growth_rate_floats np np s s Hpos).
  rewrite (growth_flat s Hpos Hfin). by destruct np.
Qed.

Lemma calculate_growth_rate_flat_witness :
  (0 <? 123.5)%float = true ∧ is_finite 123.5 = true
  ∧ calculate_growth_rate (NpFloat64 123.5) (NpFloat64 123.5) = Ok (NpFloat64 0).
Proof.
  split; [reflexivity| ]. split; [reflexivity| ].
  exact (calculate_growth_rate_flat true 123.5 eq_refl eq_refl).
Defined.

(** ** The fetcher, further *)

Lemma last_fmap_default {A B} (f : A → B) (l : list A) (d : A) :
  List.last (f <$> l) (f d) = f (List.last l d).
Proof.
  induction l as [ |x l IH]; [done| ].
  destruct l as [ |y l]; [done| ]. exact IH.
Qed.

(** What a period stores when its history is a non-empty column of
    [numpy.float64] closes. *)
Lemma period_growth_numpy (stock : Stock) (start_date end_date : string)
    (first : float) (closes : list float) :
  history stock start_date end_date = Ok (NpFloat64 <$> (first :: closes)) →
  period_growth stock start_date end_date
  = VStr (format_2f_float
            ((List.last (first :: closes) first - first) / first * 100)%float
          +:+ "%").
Proof.
  intros Hhistory. unfold period_growth. rewrite Hhistory.
  rewrite fmap_cons.
  cbv beta iota zeta delta [mbind result_bind try_except].
  change (NpFloat64 first :: (NpFloat64 <$> closes))
    with (NpFloat64 <$> (first :: closes)).
  rewrite (last_fmap_default NpFloat64 (first :: closes) first).
  reflexivity.
Qed.

(** X6: when the first close of a period is zero, what pandas' prices
    give is neither [None] nor a percentage: the period stores ["inf%"],
    ["-inf%"] or ["nan%"]. *)
Theorem period_growth_zero_first_close (stock : Stock)
    (start_date end_date : string) (first : float) (closes : list float) :
  history stock start_date end_date = Ok (NpFloat64 <$> (first :: closes)) →
  (first =? 0)%float = true →
  period_growth stock start_date end_date = VStr "inf%"
  ∨ period_growth stock start_date end_date = VStr "-inf%"
  ∨ period_growth stock start_date end_date = VStr "nan%".
Proof.
  intros Hhistory Hzero.
  rewrite (period_growth_numpy stock start_date end_date first closes Hhistory).
  pose proof (growth_zero_start_numpy first (List.last (first :: closes) first) Hzero)
    as Hnot.
  destruct (format_not_finite _ Hnot) as [-> |[-> | ->]]; auto.
Qed.

(** X7: when the first and the last close of a period are the same
    positive finite price, a single row included, the period stores
    ["0.00%"], a value distinct from the [None] of a missing period. *)
Theorem period_growth_flat (stock : Stock)
    (start_date end_date : string) (first : float) (closes : list float) :
  history stock start_date end_date = Ok (NpFloat64 <$> (first :: closes)) →
  List.last (first :: closes) first = first →
  (0 <? first)%float = true → is_finite first = true →
  period_growth stock start_date end_date = VStr "0.00%".
Proof.
  intros Hhistory Hlast Hpos Hfin.
  rewrite (period_growth_numpy stock start_date end_date first closes Hhistory).
  rewrite Hlast, (growth_flat first Hpos Hfin). reflexivity.
Qed.

Lemma period_growth_zero_first_close_witness :
  history (stock_with_closes [0; 10; 20]%float) "1994-01-01" "1999-01-01"
  = Ok (NpFloat64 <$> [0; 10; 20]%float)
  ∧ (0 =? 0)%float = true
  ∧ (period_growth (stock_with_closes [0; 10; 20]%float) "1994-01-01" "1999-01-01"
     = VStr "inf%"
     ∨ period_growth (stock_with_closes [0; 10; 20]%float) "1994-01-01" "1999-01-01"
       = VStr "-inf%"
     ∨ period_growth (stock_with_closes [0; 10; 20]%float) "1994-01-01" "1999-01-01"
       = VStr "nan%").
Proof.
  split; [reflexivity| ]. split; [reflexivity| ].
  exact (period_growth_zero_first_close (stock_with_closes [0; 10; 20]%float)
           "1994-01-01" "1999-01-01" 0 [10; 20]%float eq_refl eq_refl).
Defined.

Lemma period_growth_flat_witness :
  history (stock_with_closes [50; 60; 50]%float) "1994-01-01" "1999-01-01"
  = Ok (NpFloat64 <$> [50; 60; 50]%float)
  ∧ List.last [50; 60; 50]%float 50%float = 50%float
  ∧ (0 <? 50)%float = true ∧ is_finite 50 = true
  ∧ period_growth (stock_with_closes [50; 60; 50]%float) "1994-01-01" "1999-01-01"
    = VStr "0.00%".
Proof.
  split; [reflexivity| ]. split; [reflexivity| ].
  split; [reflexivity| ]. split; [reflexivity| ].
  exact (period_growth_flat (stock_with_closes [50; 60; 50]%float)
           "1994-01-01" "1999-01-01" 50 [60; 50]%float eq_refl eq_refl eq_refl eq_refl).
Defined.



Lemma store_periods_is_Some (stock : Stock)
    (periods : list (string * (string * string))) (r : record) (k : string) :
  is_Some (store_periods stock periods r !! k) ↔ is_Some (r !! k) ∨ k ∈ keys periods.
Proof.
  revert r. induction periods as [ |[name [sd ed]] periods IH]; intros r.
  - unfold keys. simpl. rewrite elem_of_nil. tauto.
  - rewrite store_periods_cons, IH. unfold keys. rewrite fmap_cons, elem_of_cons. simpl.
    destruct (decide (name = k)) as [->|Hne].
    + rewrite lookup_insert_eq. split; [intros [_|?]; auto|intros _; left; by eexists].
    + rewrite lookup_insert_ne by done. split; [tauto| ].
      intros [?|[?|?]]; auto. congruence.
Qed.

(** X9: a record of the fetcher has exactly ten keys: the ticker, the three
    fundamentals and the six 5-year labels; the first four hold strings,
    never [None]. *)
Theorem fetch_record_keys
    (yf_Ticker : nat → string → Stock) (tickers : list string)
    (records : list record) (rec : record) :
  fetch_growth_and_financials yf_Ticker tickers = Ok records →
  rec ∈ records →
  (∀ k, is_Some (rec !! k)
        ↔ k ∈ ["Ticker"; "Latest Revenue"; "Latest Earnings"; "Market Cap"]
              ++ keys five_year_periods)
  ∧ size rec = 10%nat
  ∧ (∀ k, k ∈ ["Ticker"; "Latest Revenue"; "Latest Earnings"; "Market Cap"] →
          ∃ s, rec !! k = Some (VStr s)).
Proof.
  intros Hfetch (i & Hi)%list_elem_of_lookup.
  apply fetch_growth_and_financials_Ok in Hfetch as [Hlen Hrecs].
  destruct (lookup_lt_is_Some_2 tickers i) as [ticker Hticker].
  { rewrite <- Hlen. by eapply lookup_lt_Some. }
  destruct (Hrecs i ticker Hticker) as (rec' & Hrec' & Hfetch).
  assert (rec' = rec) as -> by congruence.
  pose proof (fetch_record_fields _ _ _ Hfetch)
    as (Hticker' & (s1 & _ & H1) & (s2 & _ & H2) & (s3 & _ & H3) & _ & _).
  apply fetch_record_Ok in Hfetch as (r1 & r2 & r3 & _ & _ & _ & Hrec).
  assert (Hkeys : ∀ k, is_Some (rec !! k)
        ↔ k ∈ ["Ticker"; "Latest Revenue"; "Latest Earnings"; "Market Cap"]
              ++ keys five_year_periods).
  { intros k. rewrite Hrec, store_periods_is_Some, elem_of_app, !elem_of_cons,
      elem_of_nil.
    rewrite !lookup_insert_is_Some', lookup_singleton_is_Some.
    intuition (subst; auto). }
  split; [exact Hkeys| ]. split.
  - rewrite <- size_dom.
    assert (Hdom : dom rec = list_to_set
              (["Ticker"; "Latest Revenue"; "Latest Earnings"; "Market Cap"]
               ++ keys five_year_periods)).
    { apply set_eq. intros k. rewrite elem_of_dom, elem_of_list_to_set. apply Hkeys. }
    rewrite Hdom. by vm_compute.
  - intros k. rewrite !elem_of_cons, elem_of_nil.
    intros [->|[->|[->|[->|[]]]]]; eauto.
Qed.

Lemma fetch_record_keys_witness :
  fetch_growth_and_financials sample_yf ["SPY"; "QQQ"] = Ok sample_records
  ∧ sample_record_SPY ∈ sample_records
  ∧ size sample_record_SPY = 10%nat.
Proof.
  assert (Hfetch : fetch_growth_and_financials sample_yf ["SPY"; "QQQ"] = Ok sample_records)
    by by_evaluation.
  assert (Hrec : sample_records !! 0%nat = Some sample_record_SPY) by by_evaluation.
  assert (Hin : sample_record_SPY ∈ sample_records).
  { apply list_elem_of_lookup. exists 0%nat. exact Hrec. }
  split; [exact Hfetch| ]. split; [exact Hin| ].
  exact (proj1 (proj2 (fetch_record_keys sample_yf ["SPY"; "QQQ"] sample_records
                         sample_record_SPY Hfetch Hin))).
Defined.

Lemma fetch_loop_acc (yf_Ticker : nat → string → Stock) (n : nat)
    (tickers : list string) (acc : list record) :
  fetch_loop yf_Ticker n tickers acc
  = (records ← fetch_loop yf_Ticker n tickers []; Ok (acc ++ records)).
Proof.
  revert n acc. induction tickers as [ |t tickers IH]; intros n acc.
  - simpl. by rewrite app_nil_r.
  - rewrite !fetch_loop_step.
    destruct (fetch_record (yf_Ticker n t) t) as [r|e]; [ |done].
    cbv beta iota delta [mbind result_bind].
    rewrite (IH (S n) (acc ++ [r])), (IH (S n) ([] ++ [r])).
    destruct (fetch_loop yf_Ticker (S n) tickers []) as [records|e]; [ |done].
    cbv beta iota delta [mbind result_bind]. by rewrite <- app_assoc.
Qed.

Lemma fetch_loop_shift (yf_Ticker : nat → string → Stock) (k n : nat)
    (tickers : list string) (acc : list record) :
  fetch_loop yf_Ticker (k + n) tickers acc
  = fetch_loop (λ i, yf_Ticker (k + i)%nat) n tickers acc.
Proof.
  revert n acc. induction tickers as [ |t tickers IH]; intros n acc; [done| ].
  rewrite !fetch_loop_step.
  destruct (fetch_record (yf_Ticker (k + n)%nat t) t) as [r|e]; [ |done].
  cbv beta iota delta [mbind result_bind].
  rewrite <- IH. by rewrite Nat.add_succ_r.
Qed.

Lemma fetch_loop_app (yf_Ticker : nat → string → Stock) (n : nat)
    (l1 l2 : list string) (acc : list record) :
  fetch_loop yf_Ticker n (l1 ++ l2) acc
  = (mid ← fetch_loop yf_Ticker n l1 acc;
     fetch_loop yf_Ticker (length l1 + n) l2 mid).
Proof.
  revert n acc. induction l1 as [ |t l1 IH]; intros n acc; [done| ].
  rewrite <- app_comm_cons, !fetch_loop_step.
  destruct (fetch_record (yf_Ticker n t) t) as [r|e]; [ |done].
  cbv beta iota delta [mbind result_bind].
  rewrite IH. simpl length. by rewrite Nat.add_succ_r.
Qed.

(** X10: fetching a list in two batches gives the records of the whole:
    the call on [l1 ++ l2] returns the records of [l1] followed by those
    of [l2], the second batch meeting the objects the constructions after
    the first batch yield; it raises when either batch does. *)
Theorem fetch_growth_and_financials_app
    (yf_Ticker : nat → string → Stock) (l1 l2 : list string) :
  fetch_growth_and_financials yf_Ticker (l1 ++ l2)
  = (records1 ← fetch_growth_and_financials yf_Ticker l1;
     records2 ← fetch_growth_and_financials
                  (λ i, yf_Ticker (length l1 + i)%nat) l2;
     Ok (records1 ++ records2)).
Proof.
  unfold fetch_growth_and_financials. rewrite fetch_loop_app.
  destruct (fetch_loop yf_Ticker 0 l1 []) as [records1|e]; [ |done].
  cbv beta iota delta [mbind result_bind].
  rewrite fetch_loop_acc, fetch_loop_shift. reflexivity.
Qed.



(** ** The outperformer filter, further *)

Lemma find_outperformers_loop_acc (stock_data : list record)
    (benchmark_data : record) (acc : list value) :
  find_outperformers_loop stock_data benchmark_data acc
  = (out ← find_outperformers_loop stock_data benchmark_data []; Ok (acc ++ out)).
Proof.
  revert acc. induction stock_data as [ |stock stock_data IH]; intros acc.
  - simpl. by rewrite app_nil_r.
  - rewrite !find_outperformers_loop_step.
    destruct (getitem stock "Ticker") as [t|e]; [ |done].
    destruct (all_ (beats stock benchmark_data) (keys five_year_periods)) as [c|e];
      [ |done].
    cbv beta iota delta [mbind result_bind].
    rewrite (IH (if c then acc ++ [t] else acc)), (IH (if c then [] ++ [t] else [])).
    destruct (find_outperformers_loop stock_data benchmark_data []) as [out|e]; [ |done].
    cbv beta iota delta [mbind result_bind].
    destruct c; [by rewrite <- app_assoc|done].
Qed.

Lemma find_outperformers_app_eq (l1 l2 : list record) (benchmark_data : record) :
  find_outperformers (l1 ++ l2) benchmark_data
  = (out1 ← find_outperformers l1 benchmark_data;
     out2 ← find_outperformers l2 benchmark_data;
     Ok (out1 ++ out2)).
Proof.
  unfold find_outperformers. rewrite find_outperformers_loop_app.
  destruct (find_outperformers_loop l1 benchmark_data []) as [out1|e]; [ |done].
  cbv beta iota delta [mbind result_bind].
  apply find_outperformers_loop_acc.
Qed.

(** X12: filtering a list in two parts gives the outperformers of the
    whole, in order; the call raises when either part does. *)
Theorem find_outperformers_app (l1 l2 : list record) (benchmark_data : record) :
  find_outperformers (l1 ++ l2) benchmark_data
  = (out1 ← find_outperformers l1 benchmark_data;
     out2 ← find_outperformers l2 benchmark_data;
     Ok (out1 ++ out2)).
Proof. apply find_outperformers_app_eq. Qed.

(** X13: a record without the key ["Ticker"] makes the call raise
    [KeyError], whatever its growth values, once the records before it
    have been processed. *)
Theorem find_outperformers_no_ticker
    (before : list record) (stock : record) (after : list record)
    (benchmark_data : record) :
  stock !! "Ticker" = None →
  returns (find_outperformers before benchmark_data) = true →
  find_outperformers (before ++ stock :: after) benchmark_data
  = Raise (KeyError "Ticker").
Proof.
  intros Hticker [out Hbefore]%returns_Ok.
  rewrite find_outperformers_app_eq, Hbefore.
  unfold find_outperformers. rewrite find_outperformers_loop_step.
  unfold getitem at 1. by rewrite Hticker.
Qed.

Lemma find_outperformers_no_ticker_witness :
  (delete "Ticker" scenario_C) !! "Ticker" = None
  ∧ returns (find_outperformers [scenario_A] scenario_benchmark) = true
  ∧ find_outperformers ([scenario_A] ++ delete "Ticker" scenario_C :: [scenario_B])
      scenario_benchmark
    = Raise (KeyError "Ticker").
Proof.
  assert (H1 : (delete "Ticker" scenario_C) !! "Ticker" = None) by by_evaluation.
  assert (H2 : returns (find_outperformers [scenario_A] scenario_benchmark) = true)
    by by_evaluation.
  split; [exact H1| ]. split; [exact H2| ].
  exact (find_outperformers_no_ticker [scenario_A] (delete "Ticker" scenario_C)
           [scenario_B] scenario_benchmark H1 H2).
Defined.

Lemma beats_in_true (stock benchmark_data : record) (period : string) :
  beats_in stock benchmark_data period = true →
  beats stock benchmark_data period = Ok true.
Proof.
  unfold beats_in, beats, getitem.
  destruct (stock !! period) as [[ |s]| ]; try discriminate.
  destruct (benchmark_data !! period) as [[ |b]| ]; try discriminate.
  intros Hgt. cbv beta iota delta [mbind result_bind]. by rewrite Hgt.
Qed.

Lemma all_beats_passed (stock benchmark_data : record)
    (passed : list string) (period : string) (later : list string) :
  forallb (beats_in stock benchmark_data) passed = true →
  all_ (beats stock benchmark_data) (passed ++ period :: later)
  = (c ← beats stock benchmark_data period;
     if c : bool then all_ (beats stock benchmark_data) later else Ok false).
Proof.
  induction passed as [ |p passed IH]; [done| ].
  simpl. intros [Hp Hpassed]%andb_prop.
  rewrite (beats_in_true _ _ _ Hp). by apply IH.
Qed.

(** X14: the periods are examined in order and the examination stops at
    the first one that fails.  When the first period that does not pass
    has no entry in the record, or has a growth string in the record and
    no entry in the benchmark, the call raises [KeyError] with that
    period. *)
Theorem find_outperformers_missing_key
    (stock : record) (after : list record) (benchmark_data : record)
    (passed : list string) (period : string) (later : list string) :
  keys five_year_periods = passed ++ period :: later →
  forallb (beats_in stock benchmark_data) passed = true →
  is_Some (stock !! "Ticker") →
  stock !! period = None
  ∨ ((∃ s, stock !! period = Some (VStr s)) ∧ benchmark_data !! period = None) →
  find_outperformers (stock :: after) benchmark_data = Raise (KeyError period).
Proof.
  intros Hkeys Hpassed [t Ht] Hmissing.
  unfold find_outperformers. rewrite find_outperformers_loop_step.
  unfold getitem at 1. rewrite Ht.
  rewrite Hkeys, (all_beats_passed _ _ _ _ _ Hpassed).
  unfold beats, getitem.
  destruct Hmissing as [-> |[[s ->] ->]]; reflexivity.
Qed.

Lemma find_outperformers_missing_key_witness :
  keys five_year_periods
  = ["1994-1999"] ++ "1999-2004" :: ["2004-2009"; "2009-2014"; "2014-2019"; "2019-2024"]
  ∧ forallb (beats_in (delete "1999-2004" scenario_A) scenario_benchmark) ["1994-1999"]
    = true
  ∧ is_Some (delete "1999-2004" scenario_A !! "Ticker")
  ∧ delete "1999-2004" scenario_A !! "1999-2004" = None
  ∧ find_outperformers (delete "1999-2004" scenario_A :: [scenario_C]) scenario_benchmark
    = Raise (KeyError "1999-2004").
Proof.
  assert (H2 : forallb (beats_in (delete "1999-2004" scenario_A) scenario_benchmark)
                 ["1994-1999"] = true) by by_evaluation.
  assert (H3 : delete "1999-2004" scenario_A !! "Ticker" = Some (VStr "A"))
    by by_evaluation.
  assert (H4 : delete "1999-2004" scenario_A !! "1999-2004" = None) by by_evaluation.
  split; [reflexivity| ]. split; [exact H2| ].
  split; [by eexists| ]. split; [exact H4| ].
  exact (find_outperformers_missing_key (delete "1999-2004" scenario_A) [scenario_C]
           scenario_benchmark ["1994-1999"] "1999-2004"
           ["2004-2009"; "2009-2014"; "2014-2019"; "2019-2024"]
           eq_refl H2 (ex_intro _ _ H3) (or_introl H4)).
Defined.

(** X15: a record that fails at a period is passed over without its later
    periods being read: keys missing there, in the record or in the
    benchmark, raise nothing. *)
Theorem find_outperformers_stops_at_first_failure
    (stock : record) (after : list record) (benchmark_data : record)
    (passed : list string) (period : string) (later : list string) :
  keys five_year_periods = passed ++ period :: later →
  forallb (beats_in stock benchmark_data) passed = true →
  is_Some (stock !! "Ticker") →
  stock !! period = Some VNone
  ∨ (∃ s, stock !! period = Some (VStr s)
          ∧ (benchmark_data !! period = Some VNone
             ∨ ∃ b, benchmark_data !! period = Some (VStr b) ∧ str_gt s b = false)) →
  find_outperformers (stock :: after) benchmark_data
  = find_outperformers after benchmark_data.
Proof.
  intros Hkeys Hpassed [t Ht] Hfails.
  unfold find_outperformers. rewrite find_outperformers_loop_step.
  unfold getitem at 1. rewrite Ht.
  rewrite Hkeys, (all_beats_passed _ _ _ _ _ Hpassed).
  unfold beats, getitem.
  destruct Hfails as [-> |(s & -> & [-> |(b & -> & Hgt)])];
    cbv beta iota delta [mbind result_bind]; rewrite ?Hgt; reflexivity.
Qed.

Lemma find_outperformers_stops_at_first_failure_witness :
  keys five_year_periods
  = [] ++ "1994-1999" :: ["1999-2004"; "2004-2009"; "2009-2014"; "2014-2019"; "2019-2024"]
  ∧ forallb (beats_in (delete "2019-2024" scenario_benchmark) (delete "2019-2024" scenario_A)) []
    = true
  ∧ is_Some (delete "2019-2024" scenario_benchmark !! "Ticker")
  ∧ delete "2019-2024" scenario_benchmark !! "1994-1999" = Some (VStr "10.00%")
  ∧ delete "2019-2024" scenario_A !! "1994-1999" = Some (VStr "12.00%")
  ∧ str_gt "10.00%" "12.00%" = false
  ∧ find_outperformers (delete "2019-2024" scenario_benchmark :: []) (delete "2019-2024" scenario_A)
    = Ok [].
Proof.
  assert (H3 : delete "2019-2024" scenario_benchmark !! "Ticker" = Some (VStr "SPY"))
    by by_evaluation.
  assert (H4 : delete "2019-2024" scenario_benchmark !! "1994-1999" = Some (VStr "10.00%"))
    by by_evaluation.
  assert (H5 : delete "2019-2024" scenario_A !! "1994-1999" = Some (VStr "12.00%"))
    by by_evaluation.
  assert (H6 : str_gt "10.00%" "12.00%" = false) by by_evaluation.
  split; [reflexivity| ]. split; [reflexivity| ]. split; [by eexists| ].
  split; [exact H4| ]. split; [exact H5| ]. split; [exact H6| ].
  exact (find_outperformers_stops_at_first_failure (delete "2019-2024" scenario_benchmark) []
           (delete "2019-2024" scenario_A) [] "1994-1999"
           ["1999-2004"; "2004-2009"; "2009-2014"; "2014-2019"; "2019-2024"]
           eq_refl eq_refl (ex_intro _ _ H3)
           (or_intror (ex_intro _ _ (conj H4 (or_intror (ex_intro _ _ (conj H5 H6))))))).
Defined.

Lemma compare_refl (s : string) : String.compare s s = Eq.
Proof.
  induction s as [ |a s IH]; [done| ].
  simpl. unfold Ascii.compare. by rewrite N.compare_refl.
Qed.

Lemma str_gt_irrefl (s : string) : str_gt s s = false.
Proof. unfold str_gt, String.ltb. by rewrite compare_refl. Qed.

Lemma str_gt_asym (a b : string) : str_gt a b = true → str_gt b a = false.
Proof.
  unfold str_gt, String.ltb. rewrite (String.compare_antisym a b).
  by destruct (String.compare b a).
Qed.

Lemma str_gt_trans (a b c : string) :
  str_gt a b = true → str_gt b c = true → str_gt a c = true.
Proof.
  unfold str_gt, String.ltb. intros Hab Hbc.
  destruct (String.compare b a) eqn:Hba; try discriminate.
  destruct (String.compare c b) eqn:Hcb; try discriminate.
  assert (Hle : String.le c a).
  { transitivity b; unfold String.le, String.leb; [by rewrite Hcb|by rewrite Hba]. }
  unfold String.le, String.leb in Hle.
  destruct (String.compare c a) eqn:Hca; try done.
  apply String.compare_eq_iff in Hca as ->.
  rewrite (String.compare_antisym a b), Hba in Hcb. discriminate.
Qed.

Lemma equal_growth_not_outperforms (stock benchmark_data : record) (period : string) :
  period ∈ keys five_year_periods →
  stock !! period = benchmark_data !! period →
  outperforms benchmark_data stock = false.
Proof.
  intros Hin Heq. apply not_true_is_false. intros Hall.
  unfold outperforms in Hall. rewrite forallb_forall in Hall.
  specialize (Hall period). rewrite <- list_elem_of_In in Hall.
  specialize (Hall Hin). unfold beats_in in Hall. rewrite Heq in Hall.
  destruct (benchmark_data !! period) as [[ |s]| ]; try done.
  by rewrite str_gt_irrefl in Hall.
Qed.

Lemma find_outperformers_skip
    (before : list record) (stock : record) (after : list record)
    (benchmark_data : record) (out : list value) :
  outperforms benchmark_data stock = false →
  find_outperformers (before ++ stock :: after) benchmark_data = Ok out →
  find_outperformers (before ++ after) benchmark_data = Ok out.
Proof.
  unfold find_outperformers. rewrite !find_outperformers_loop_app.
  intros Hnot (mid & Hmid & Hrest)%bind_Ok.
  apply find_outperformers_loop_cons in Hrest as [_ Hrest].
  rewrite Hnot in Hrest. by rewrite Hmid.
Qed.

(** X16: the comparison is strict: a record whose value in some 5-year
    period is the benchmark's own adds nothing to the returned list; in
    particular a complete benchmark is no outperformer of itself. *)
Theorem find_outperformers_excludes_equal
    (before : list record) (stock : record) (after : list record)
    (benchmark_data : record) (out : list value) (period : string) :
  find_outperformers (before ++ stock :: after) benchmark_data = Ok out →
  period ∈ keys five_year_periods →
  stock !! period = benchmark_data !! period →
  find_outperformers (before ++ after) benchmark_data = Ok out
  ∧ (complete benchmark_data →
     find_outperformers [benchmark_data] benchmark_data = Ok []).
Proof.
  intros Hrun Hin Heq. split.
  - eapply find_outperformers_skip; [ |exact Hrun].
    by apply (equal_growth_not_outperforms _ _ period).
  - intros Hcomplete.
    destruct (find_outperformers_loop_complete [benchmark_data] benchmark_data [])
      as [out' Hout']; [by constructor|apply Hcomplete| ].
    unfold find_outperformers. rewrite Hout'.
    apply find_outperformers_loop_Ok in Hout' as ->. simpl.
    rewrite filter_cons, decide_False; [done| ].
    rewrite (equal_growth_not_outperforms benchmark_data benchmark_data period);
      done.
Qed.

Lemma find_outperformers_excludes_equal_witness :
  find_outperformers ([scenario_A] ++ scenario_benchmark :: [scenario_C])
    scenario_benchmark = Ok [VStr "A"; VStr "C"]
  ∧ "1994-1999" ∈ keys five_year_periods
  ∧ scenario_benchmark !! "1994-1999" = scenario_benchmark !! "1994-1999"
  ∧ find_outperformers ([scenario_A] ++ [scenario_C]) scenario_benchmark
    = Ok [VStr "A"; VStr "C"].
Proof.
  assert (Hrun : find_outperformers ([scenario_A] ++ scenario_benchmark :: [scenario_C])
                   scenario_benchmark = Ok [VStr "A"; VStr "C"]) by by_evaluation.
  assert (Hin : "1994-1999" ∈ keys five_year_periods) by not_a_period.
  split; [exact Hrun| ]. split; [exact Hin| ]. split; [reflexivity| ].
  exact (proj1 (find_outperformers_excludes_equal [scenario_A] scenario_benchmark
                  [scenario_C] scenario_benchmark _ "1994-1999" Hrun Hin eq_refl)).
Defined.

Lemma benchmark_None_empty
    (stock_data : list record) (benchmark_data : record) (out : list value)
    (period : string) :
  period ∈ keys five_year_periods →
  benchmark_data !! period = Some VNone →
  find_outperformers stock_data benchmark_data = Ok out →
  out = [].
Proof.
  intros Hin Hnone ->%find_outperformers_loop_Ok. simpl.
  induction stock_data as [ |stock stock_data IH]; [done| ].
  rewrite filter_cons, decide_False; [exact IH| ].
  rewrite missing_growth_not_outperforms; [done| ].
  exists period. auto.
Qed.

(** X17: against a benchmark with [None] in some 5-year period no record
    qualifies: whenever the call returns, it returns the empty list. *)
Theorem find_outperformers_benchmark_missing
    (stock_data : list record) (benchmark_data : record) (out : list value)
    (period : string) :
  period ∈ keys five_year_periods →
  benchmark_data !! period = Some VNone →
  find_outperformers stock_data benchmark_data = Ok out →
  out = [].
Proof. apply benchmark_None_empty. Qed.

Lemma find_outperformers_benchmark_missing_witness :
  "1999-2004" ∈ keys five_year_periods
  ∧ scenario_B !! "1999-2004" = Some VNone
  ∧ find_outperformers [scenario_A; scenario_C] scenario_B = Ok [].
Proof.
  assert (Hin : "1999-2004" ∈ keys five_year_periods) by not_a_period.
  assert (Hnone : scenario_B !! "1999-2004" = Some VNone) by by_evaluation.
  split; [exact Hin| ]. split; [exact Hnone| ].
  destruct (find_outperformers [scenario_A; scenario_C] scenario_B) as [out|e] eqn:Hrun.
  - by rewrite (find_outperformers_benchmark_missing [scenario_A; scenario_C]
                  scenario_B out "1999-2004" Hin Hnone Hrun).
  - exfalso.
    assert (Hreturns : returns (find_outperformers [scenario_A; scenario_C] scenario_B)
                       = true) by by_evaluation.
    rewrite Hrun in Hreturns. discriminate Hreturns.
Defined.

Lemma find_outperformers_one (stock benchmark_data : record) (t : value) :
  find_outperformers [stock] benchmark_data = Ok [t] ↔
  stock !! "Ticker" = Some t ∧ outperforms benchmark_data stock = true.
Proof.
  unfold find_outperformers. split.
  - intros Hrun. pose proof Hrun as [[t' Ht'] Hrest]%find_outperformers_loop_cons.
    simpl in Hrest. unfold ticker_of in Hrest. rewrite Ht' in Hrest. simpl in Hrest.
    destruct (outperforms benchmark_data stock); [ |discriminate].
    by injection Hrest as ->.
  - intros [Ht Hall]. rewrite find_outperformers_loop_step.
    unfold getitem at 1. rewrite Ht.
    assert (Hbeats : all_ (beats stock benchmark_data) (keys five_year_periods) = Ok true).
    { unfold outperforms in Hall. revert Hall.
      generalize (keys five_year_periods) as periods.
      induction periods as [ |p periods IH]; [done| ].
      simpl. intros [Hp Hrest]%andb_prop.
      rewrite (beats_in_true _ _ _ Hp). by apply IH. }
    by rewrite Hbeats.
Qed.

Lemma beats_in_trans (r b c : record) (period : string) :
  beats_in r b period = true → beats_in b c period = true →
  beats_in r c period = true.
Proof.
  unfold beats_in.
  destruct (r !! period) as [[ |s]| ]; try discriminate.
  destruct (b !! period) as [[ |g]| ]; try discriminate.
  destruct (c !! period) as [[ |h]| ]; try discriminate.
  apply str_gt_trans.
Qed.

Lemma beats_in_asym (r b : record) (period : string) :
  beats_in r b period = true → beats_in b r period = false.
Proof.
  unfold beats_in.
  destruct (r !! period) as [[ |s]| ]; try discriminate.
  destruct (b !! period) as [[ |g]| ]; try discriminate.
  apply str_gt_asym.
Qed.

(** X18: outperforming is a strict order on records: if a record is
    returned against a benchmark and that benchmark, taken as a record, is
    returned against a third, the first record is returned against the
    third; and a benchmark with a ticker is never returned against a
    record that is returned against it. *)
Theorem find_outperformers_strict_order (r b c : record) (t tb : value) :
  find_outperformers [r] b = Ok [t] →
  (find_outperformers [b] c = Ok [tb] → find_outperformers [r] c = Ok [t])
  ∧ (is_Some (b !! "Ticker") → find_outperformers [b] r = Ok []).
Proof.
  intros [Ht Hrb]%find_outperformers_one. split.
  - intros [_ Hbc]%find_outperformers_one. apply find_outperformers_one.
    split; [done| ]. unfold outperforms in *.
    rewrite forallb_forall in *. intros p Hp.
    by apply (beats_in_trans r b c); [apply Hrb|apply Hbc].
  - intros [tb' Htb]. unfold find_outperformers.
    rewrite find_outperformers_loop_step. unfold getitem at 1. rewrite Htb.
    assert (Hfirst : beats b r "1994-1999" = Ok false).
    { unfold outperforms in Hrb. simpl in Hrb.
      apply andb_prop in Hrb as [Hp _]. pose proof (beats_in_asym _ _ _ Hp) as Hasym.
      unfold beats_in in Hp, Hasym. unfold beats, getitem.
      destruct (r !! "1994-1999") as [[ |s]| ]; try discriminate.
      destruct (b !! "1994-1999") as [[ |g]| ]; try discriminate.
      cbv beta iota delta [mbind result_bind]. by rewrite Hasym. }
    change (keys five_year_periods)
      with ("1994-1999" :: ["1999-2004"; "2004-2009"; "2009-2014"; "2014-2019"; "2019-2024"]).
    cbn [all_]. by rewrite Hfirst.
Qed.

Lemma find_outperformers_strict_order_witness :
  find_outperformers [scenario_A] scenario_benchmark = Ok [VStr "A"]
  ∧ is_Some (scenario_benchmark !! "Ticker")
  ∧ find_outperformers [scenario_benchmark] scenario_A = Ok [].
Proof.
  assert (Hrun : find_outperformers [scenario_A] scenario_benchmark = Ok [VStr "A"])
    by by_evaluation.
  assert (Hticker : scenario_benchmark !! "Ticker" = Some (VStr "SPY")) by by_evaluation.
  split; [exact Hrun| ]. split; [by eexists| ].
  exact (proj2 (find_outperformers_strict_order scenario_A scenario_benchmark
                  scenario_benchmark (VStr "A") (VStr "SPY") Hrun)
               (ex_intro _ _ Hticker)).
Defined.

(** X19: the filter reads a record's ticker and 5-year values, and the
    benchmark's 5-year values, and nothing else: on lists of records that
    agree there, position by position, and benchmarks that agree on the
    5-year periods, it gives the same result, be it a list or an
    exception. *)
Theorem find_outperformers_reads_only
    (stock_data stock_data' : list record) (benchmark_data benchmark_data' : record) :
  Forall2 (λ r r' : record, ∀ k, k ∈ read_by_filter → r !! k = r' !! k)
    stock_data stock_data' →
  (∀ k, k ∈ keys five_year_periods → benchmark_data !! k = benchmark_data' !! k) →
  find_outperformers stock_data benchmark_data
  = find_outperformers stock_data' benchmark_data'.
Proof.
  intros Hall Hbench. unfold find_outperformers. generalize (@nil value) as acc.
  induction Hall as [ |r r' stock_data stock_data' Hr _ IH]; intros acc; [done| ].
  rewrite !find_outperformers_loop_step.
  assert (Hticker : getitem r "Ticker" = getitem r' "Ticker").
  { unfold getitem. rewrite (Hr "Ticker"); [done|left]. }
  rewrite Hticker. destruct (getitem r' "Ticker") as [t|e]; [ |done].
  rewrite (all_ext (beats r benchmark_data) (beats r' benchmark_data')).
  - destruct (all_ (beats r' benchmark_data') (keys five_year_periods)) as [c|e];
      [ |done]. apply IH.
  - intros p Hp. unfold beats, getitem.
    rewrite (Hr p) by (by right). by rewrite (Hbench p Hp).
Qed.

Lemma find_outperformers_reads_only_witness :
  Forall2 (λ r r' : record, ∀ k, k ∈ read_by_filter → r !! k = r' !! k)
    [scenario_A] [<["Market Cap" := VStr "$1.00B"]> scenario_A]
  ∧ (∀ k, k ∈ keys five_year_periods →
          scenario_benchmark !! k = <["1994-2004" := VNone]> scenario_benchmark !! k)
  ∧ find_outperformers [scenario_A] scenario_benchmark
    = find_outperformers [<["Market Cap" := VStr "$1.00B"]> scenario_A]
        (<["1994-2004" := VNone]> scenario_benchmark).
Proof.
  assert (H1 : Forall2 (λ r r' : record, ∀ k, k ∈ read_by_filter → r !! k = r' !! k)
                 [scenario_A] [<["Market Cap" := VStr "$1.00B"]> scenario_A]).
  { repeat constructor. intros k Hk. rewrite lookup_insert_ne; [done| ].
    intros <-. revert Hk. not_a_period. }
  assert (H2 : ∀ k, k ∈ keys five_year_periods →
            scenario_benchmark !! k = <["1994-2004" := VNone]> scenario_benchmark !! k).
  { intros k Hk. rewrite lookup_insert_ne; [done| ]. intros <-. revert Hk. not_a_period. }
  split; [exact H1| ]. split; [exact H2| ].
  exact (find_outperformers_reads_only _ _ _ _ H1 H2).
Defined.

(** ** The ticker source *)

Lemma lstrip_begins (s : string) : begins_with_space (lstrip s) = false.
Proof.
  induction s as [ |c s IH]; [done| ].
  simpl. destruct (is_space c) eqn:Hc; [exact IH| ]. simpl. exact Hc.
Qed.

Lemma rstrip_begins (s : string) :
  begins_with_space s = false → begins_with_space (rstrip s) = false.
Proof.
  destruct s as [ |c s]; [done| ]. simpl. intros Hc.
  destruct (rstrip s); [by rewrite Hc| ]. simpl. exact Hc.
Qed.

Lemma rstrip_ends (s : string) : ends_with_space (rstrip s) = false.
Proof.
  induction s as [ |c s IH]; [done| ].
  simpl. destruct (rstrip s) as [ |c' r] eqn:Hr.
  - destruct (is_space c) eqn:Hc; [done| ]. simpl. exact Hc.
  - exact IH.
Qed.

Lemma strip_no_outer_space (s : string) :
  begins_with_space (strip s) = false ∧ ends_with_space (strip s) = false.
Proof.
  unfold strip. split; [apply rstrip_begins, lstrip_begins|apply rstrip_ends].
Qed.

Lemma scrape_rows_cells (rows : list (list string)) (tickers : list string) :
  Forall (λ row, row ≠ []) rows →
  scrape_rows rows tickers
  = Ok (tickers ++ ((λ row, strip (default EmptyString (head row))) <$> rows)).
Proof.
  intros Hrows. revert tickers.
  induction Hrows as [ |row rows Hrow _ IH]; intros tickers.
  - simpl. by rewrite app_nil_r.
  - destruct row as [ |cell row]; [done| ].
    simpl. rewrite IH. by rewrite <- app_assoc.
Qed.

Lemma scrape_rows_no_cell (before after : list (list string)) (tickers : list string) :
  Forall (λ row, row ≠ []) before →
  scrape_rows (before ++ [] :: after) tickers = Raise (OtherException "IndexError").
Proof.
  intros Hrows. revert tickers.
  induction Hrows as [ |row rows Hrow _ IH]; intros tickers; [done| ].
  destruct row as [ |cell row]; [done| ]. simpl. apply IH.
Qed.

(** X20: on a table whose rows after the first each have a cell, the
    scraper returns one ticker per such row, in order: the text of the
    row's first cell without the white space around it, so that no ticker
    begins or ends with white space.  The first row is not read. *)
Theorem get_snp500_tickers_rows (header : list string) (rows : list (list string)) :
  Forall (λ row, row ≠ []) rows →
  get_snp500_tickers (Ok (Some (header :: rows)))
  = Ok ((λ row, strip (default EmptyString (head row))) <$> rows)
  ∧ ∀ tickers, get_snp500_tickers (Ok (Some (header :: rows))) = Ok tickers →
      length tickers = length rows
      ∧ Forall (λ t, begins_with_space t = false ∧ ends_with_space t = false) tickers.
Proof.
  intros Hrows.
  assert (Hrun : get_snp500_tickers (Ok (Some (header :: rows)))
                 = Ok ((λ row, strip (default EmptyString (head row))) <$> rows)).
  { change (get_snp500_tickers (Ok (Some (header :: rows))))
      with (scrape_rows rows []).
    by rewrite (scrape_rows_cells rows [] Hrows). }
  split; [exact Hrun| ]. intros tickers. rewrite Hrun. intros [= <-]. split.
  - by rewrite length_fmap.
  - apply Forall_fmap, Forall_forall. intros row _. apply strip_no_outer_space.
Qed.

Lemma get_snp500_tickers_rows_witness :
  Forall (λ row : list string, row ≠ []) [["MMM" +:+ String "010" EmptyString; "3M"]; [" AOS "; "A. O. Smith"]]
  ∧ get_snp500_tickers
      (Ok (Some (["Symbol"; "Security"] :: [["MMM" +:+ String "010" EmptyString; "3M"]; [" AOS "; "A. O. Smith"]])))
    = Ok ["MMM"; "AOS"].
Proof.
  assert (Hrows : Forall (λ row : list string, row ≠ []) [["MMM" +:+ String "010" EmptyString; "3M"]; [" AOS "; "A. O. Smith"]]) by (repeat constructor; discriminate).
  split; [exact Hrows| ].
  exact (proj1 (get_snp500_tickers_rows ["Symbol"; "Security"] _ Hrows)).
Defined.

(** X21: the scraper raises what fetching the page raises,
    [AttributeError] when the page has no constituents table, and
    [IndexError] at the first row after the first that has no cell; a
    table with no row, or with its first row only, gives the empty list. *)
Theorem get_snp500_tickers_failures (header : list string)
    (before after : list (list string)) :
  Forall (λ row, row ≠ []) before →
  get_snp500_tickers (Ok (Some (header :: before ++ [] :: after)))
  = Raise (OtherException "IndexError")
  ∧ get_snp500_tickers (Ok None) = Raise (OtherException "AttributeError")
  ∧ (∀ e, get_snp500_tickers (Raise e) = Raise e)
  ∧ get_snp500_tickers (Ok (Some [])) = Ok []
  ∧ get_snp500_tickers (Ok (Some [header])) = Ok [].
Proof.
  intros Hrows. split_and!; try reflexivity.
  change (get_snp500_tickers (Ok (Some (header :: before ++ [] :: after))))
    with (scrape_rows (before ++ [] :: after) []).
  by apply scrape_rows_no_cell.
Qed.

Lemma get_snp500_tickers_failures_witness :
  Forall (λ row : list string, row ≠ []) [["MMM"; "3M"]]
  ∧ get_snp500_tickers
      (Ok (Some (["Symbol"] :: [["MMM"; "3M"]] ++ [] :: [["AOS"]])))
    = Raise (OtherException "IndexError").
Proof.
  assert (Hrows : Forall (λ row : list string, row ≠ []) [["MMM"; "3M"]])
    by (repeat constructor; discriminate).
  split; [exact Hrows| ].
  exact (proj1 (get_snp500_tickers_failures ["Symbol"] [["MMM"; "3M"]] [["AOS"]] Hrows)).
Defined.

(** ** The script's run *)

Lemma fetch_record_complete (stock : Stock) (ticker : string) (rec : record) :
  fetch_record stock ticker = Ok rec →
  complete rec ∧ ticker_of rec = VStr ticker.
Proof.
  intros (Hticker & _ & _ & _ & Hperiods & _)%fetch_record_fields.
  split; [split| ].
  - by eexists.
  - intros period ([n [sd ed]] & -> & Hin)%list_elem_of_fmap.
    simpl. rewrite (Hperiods n sd ed Hin). by eexists.
  - unfold ticker_of. by rewrite Hticker.
Qed.

(** The records of the fetcher carry the tickers of the input, in order,
    and have a value under every key the filter reads. *)
Lemma fetch_records_complete
    (yf_Ticker : nat → string → Stock) (tickers : list string)
    (records : list record) :
  fetch_growth_and_financials yf_Ticker tickers = Ok records →
  Forall complete records ∧ ticker_of <$> records = VStr <$> tickers.
Proof.
  intros [Hlen Hrecs]%fetch_growth_and_financials_Ok. split.
  - apply Forall_lookup. intros i rec Hrec.
    destruct (lookup_lt_is_Some_2 tickers i) as [ticker Hticker].
    { rewrite <- Hlen. by eapply lookup_lt_Some. }
    destruct (Hrecs i ticker Hticker) as (rec' & Hrec' & Hfetch).
    assert (rec' = rec) as -> by congruence.
    by apply (fetch_record_complete _ _ _ Hfetch).
  - apply list_eq. intros i. rewrite !list_lookup_fmap.
    destruct (tickers !! i) as [ticker| ] eqn:Hticker.
    + destruct (Hrecs i ticker Hticker) as (rec & -> & Hfetch). simpl.
      f_equal. by apply (fetch_record_complete _ _ _ Hfetch).
    + rewrite (lookup_ge_None_2 records i); [done| ].
      rewrite Hlen. by apply lookup_ge_None.
Qed.

Lemma find_outperformers_on_complete
    (stock_data : list record) (benchmark_data : record) :
  Forall complete stock_data → complete benchmark_data →
  ∃ out, find_outperformers stock_data benchmark_data = Ok out
         ∧ out `sublist_of` (ticker_of <$> stock_data).
Proof.
  intros Hall [_ Hbench].
  destruct (find_outperformers_loop_complete stock_data benchmark_data [] Hall Hbench)
    as [out Hout].
  exists out. split; [exact Hout| ].
  apply find_outperformers_loop_Ok in Hout as ->. simpl.
  apply fmap_sublist, sublist_filter.
Qed.

Lemma fetch_single (yf_Ticker : nat → string → Stock) (ticker : string)
    (fetched : list record) :
  fetch_growth_and_financials yf_Ticker [ticker] = Ok fetched →
  ∃ rec, fetched = [rec] ∧ fetch_record (yf_Ticker 0 ticker) ticker = Ok rec.
Proof.
  unfold fetch_growth_and_financials. rewrite fetch_loop_step.
  destruct (fetch_record (yf_Ticker 0 ticker) ticker) as [rec|e]; [ |done].
  intros [= <-]. by exists rec.
Qed.

(** X22: the run of the script up to the two filters raises neither
    [IndexError] nor [KeyError], whatever the provider raises: if the
    fundamentals retrieved are values [format_currency] accepts, it
    returns the records of the 89 listed tickers, in order, and two lists
    of outperformers, each a sublist of those tickers. *)
Theorem script_returns (yf_all yf_snp500 yf_qqq : nat → string → Stock) :
  (∀ i ticker, stock_tickers !! i = Some ticker → formattable (yf_all i ticker) = true) →
  formattable (yf_snp500 0 snp500_ticker) = true →
  formattable (yf_qqq 0 qqq_ticker) = true →
  ∃ stock_tickers_data snp500_outperformers qqq_outperformers,
    script yf_all yf_snp500 yf_qqq
    = Ok (stock_tickers_data, snp500_outperformers, qqq_outperformers)
    ∧ ticker_of <$> stock_tickers_data = VStr <$> stock_tickers
    ∧ length stock_tickers_data = 89%nat
    ∧ snp500_outperformers `sublist_of` (VStr <$> stock_tickers)
    ∧ qqq_outperformers `sublist_of` (VStr <$> stock_tickers).
Proof.
  intros Hall Hsnp Hqqq.
  destruct (fetch_returns_formattable yf_all stock_tickers Hall) as [data Hdata].
  destruct (fetch_returns_formattable yf_snp500 [snp500_ticker]) as [l1 Hl1].
  { intros [ |i] ticker; [ |done]. by intros [= <-]. }
  destruct (fetch_returns_formattable yf_qqq [qqq_ticker]) as [l2 Hl2].
  { intros [ |i] ticker; [ |done]. by intros [= <-]. }
  destruct (fetch_single _ _ _ Hl1) as (snp500_data & -> & Hsnp_rec).
  destruct (fetch_single _ _ _ Hl2) as (qqq_data & -> & Hqqq_rec).
  destruct (fetch_records_complete _ _ _ Hdata) as [Hcomplete Htickers].
  destruct (find_outperformers_on_complete data snp500_data Hcomplete)
    as (snp_out & Hsnp_out & Hsnp_sub);
    [by apply (fetch_record_complete _ _ _ Hsnp_rec)| ].
  destruct (find_outperformers_on_complete data qqq_data Hcomplete)
    as (qqq_out & Hqqq_out & Hqqq_sub);
    [by apply (fetch_record_complete _ _ _ Hqqq_rec)| ].
  exists data, snp_out, qqq_out. split_and!.
  - unfold script. rewrite Hdata, Hl1, Hl2.
    cbv beta iota delta [mbind result_bind getitem_list]. simpl lookup.
    cbv beta iota. by rewrite Hsnp_out, Hqqq_out.
  - exact Htickers.
  - apply (f_equal length) in Htickers. rewrite !length_fmap in Htickers.
    by rewrite Htickers.
  - by rewrite <- Htickers.
  - by rewrite <- Htickers.
Qed.

Lemma script_returns_witness :
  (∀ i ticker, stock_tickers !! i = Some ticker →
     formattable (sample_yf i ticker) = true)
  ∧ formattable (sample_yf 0 snp500_ticker) = true
  ∧ formattable (sample_yf 0 qqq_ticker) = true
  ∧ ∃ stock_tickers_data snp500_outperformers qqq_outperformers,
      script sample_yf sample_yf sample_yf
      = Ok (stock_tickers_data, snp500_outperformers, qqq_outperformers)
      ∧ length stock_tickers_data = 89%nat.
Proof.
  split; [intros i ticker _; apply sample_yf_formattable| ].
  split; [apply sample_yf_formattable| ]. split; [apply sample_yf_formattable| ].
  destruct (script_returns sample_yf sample_yf sample_yf
              (λ i ticker _, sample_yf_formattable i ticker)
              (sample_yf_formattable 0 snp500_ticker)
              (sample_yf_formattable 0 qqq_ticker))
    as (data & snp_out & qqq_out & Hrun & _ & Hlen & _).
  exists data, snp_out, qqq_out. split; [exact Hrun|exact Hlen].
Defined.

Lemma fetched_benchmark_None (yf_Ticker : nat → string → Stock) (ticker : string)
    (fetched : list record) (benchmark_data : record)
    (name start_date end_date : string) :
  fetch_growth_and_financials yf_Ticker [ticker] = Ok fetched →
  getitem_list fetched 0 = Ok benchmark_data →
  (name, (start_date, end_date)) ∈ five_year_periods →
  history (yf_Ticker 0 ticker) start_date end_date = Ok []
  ∨ (∃ e, history (yf_Ticker 0 ticker) start_date end_date = Raise e) →
  name ∈ keys five_year_periods ∧ benchmark_data !! name = Some VNone.
Proof.
  intros (rec & -> & Hrec)%fetch_single [= <-] Hin Hmissing. split.
  - apply list_elem_of_fmap. by exists (name, (start_date, end_date)).
  - apply fetch_record_fields in Hrec as (_ & _ & _ & _ & Hperiods & _).
    rewrite (Hperiods name start_date end_date Hin). f_equal.
    by apply period_growth_missing.
Qed.

(** X23: when the history of a benchmark is empty, or fails to be
    retrieved, in one of the 5-year periods, the script's list of
    outperformers of that benchmark is empty, whatever the tickers'
    records hold. *)
Theorem script_benchmark_missing_period
    (yf_all yf_snp500 yf_qqq : nat → string → Stock)
    (stock_tickers_data : list record)
    (snp500_outperformers qqq_outperformers : list value)
    (name start_date end_date : string) :
  script yf_all yf_snp500 yf_qqq
  = Ok (stock_tickers_data, snp500_outperformers, qqq_outperformers) →
  (name, (start_date, end_date)) ∈ five_year_periods →
  (history (yf_snp500 0 snp500_ticker) start_date end_date = Ok []
   ∨ (∃ e, history (yf_snp500 0 snp500_ticker) start_date end_date = Raise e) →
   snp500_outperformers = [])
  ∧ (history (yf_qqq 0 qqq_ticker) start_date end_date = Ok []
     ∨ (∃ e, history (yf_qqq 0 qqq_ticker) start_date end_date = Raise e) →
     qqq_outperformers = []).
Proof.
  unfold script.
  intros (data & Hdata & (l1 & Hl1 & (snp500_data & Hsnp & (l2 & Hl2
    & (qqq_data & Hqqq & (snp_out & Hsnp_out & (qqq_out & Hqqq_out & Hret)%bind_Ok
    )%bind_Ok)%bind_Ok)%bind_Ok)%bind_Ok)%bind_Ok)%bind_Ok Hin.
  injection Hret as <- <- <-. split; intros Hmissing.
  - destruct (fetched_benchmark_None _ _ _ _ _ _ _ Hl1 Hsnp Hin Hmissing) as [Hk Hnone].
    by apply (benchmark_None_empty data snp500_data snp_out name).
  - destruct (fetched_benchmark_None _ _ _ _ _ _ _ Hl2 Hqqq Hin Hmissing) as [Hk Hnone].
    by apply (benchmark_None_empty data qqq_data qqq_out name).
Qed.

Lemma script_benchmark_missing_period_witness :
  script sample_yf sample_yf sample_yf
  = Ok (sample_run.1.1, sample_run.1.2, sample_run.2)
  ∧ ("1999-2004", ("1999-01-01", "2004-01-01")) ∈ five_year_periods
  ∧ history (sample_yf 0 snp500_ticker) "1999-01-01" "2004-01-01" = Ok []
  ∧ sample_run.1.2 = [].
Proof.
  assert (Hrun : script sample_yf sample_yf sample_yf
                 = Ok (sample_run.1.1, sample_run.1.2, sample_run.2)) by by_evaluation.
  assert (Hin : ("1999-2004", ("1999-01-01", "2004-01-01")) ∈ five_year_periods)
    by not_a_period.
  assert (Hempty : history (sample_yf 0 snp500_ticker) "1999-01-01" "2004-01-01" = Ok [])
    by by_evaluation.
  split; [exact Hrun| ]. split; [exact Hin| ]. split; [exact Hempty| ].
  exact (proj1 (script_benchmark_missing_period sample_yf sample_yf sample_yf
                  _ _ _ "1999-2004" "1999-01-01" "2004-01-01" Hrun Hin)
               (or_introl Hempty)).
Defined.
